(** * CurrentMeter: a shallow embedding of CurrentMeter.ino

    The sketch targets an Arduino Nano (AVR): [int] is 16 bits, [long] is
    32 bits, [float] (and [double]) is IEEE binary32.  Integers are modelled
    as [Z] with the wrap-around written out, floats as [spec_float] at
    precision 24 / emax 128, the EEPROM as a finite map from byte addresses
    to byte values, and the global variables of the sketch as one record
    threaded through procedures that also return the trace of calls made to
    the peripherals (serial port, display, pins). *)

From Stdlib Require Import ZArith Lia List String Ascii.
From Stdlib Require Import Floats.SpecFloat.
From stdpp Require Import base option gmap.
Import ListNotations.
Local Open Scope Z_scope.

(** ** Machine integers of the AVR target *)

Module AVR.

(** Two's complement reading of the low [w] bits. *)
Definition wrap (w : Z) (z : Z) : Z :=
  (z + 2 ^ (w - 1)) mod 2 ^ w - 2 ^ (w - 1).

Definition to_int (z : Z) : Z := wrap 16 z.
Definition to_long (z : Z) : Z := wrap 32 z.
(** [char] is signed on avr-gcc. *)
Definition to_char (z : Z) : Z := wrap 8 z.
Definition to_byte (z : Z) : Z := z mod 256.

Definition int_range (z : Z) : Prop := -32768 <= z <= 32767.
Definition long_range (z : Z) : Prop := -2147483648 <= z <= 2147483647.

Definition sizeof_int : Z := 2.
Definition sizeof_long : Z := 4.
Definition sizeof_float : Z := 4.

End AVR.

(** ** IEEE binary32 *)

Module F32.

Definition float : Type := spec_float.

Definition prec : Z := 24.
Definition emax : Z := 128.

Definition mul : float -> float -> float := SFmul prec emax.
Definition add : float -> float -> float := SFadd prec emax.
Definition sub : float -> float -> float := SFsub prec emax.
Definition div : float -> float -> float := SFdiv prec emax.
Definition opp : float -> float := SFopp.
Definition ltb : float -> float -> bool := SFltb.

(** Conversion of an integer, as in [float(x)] or an implicit promotion. *)
Definition of_Z (z : Z) : float := binary_normalize prec emax z 0 false.

Definition zero : float := S754_zero false.
Definition one : float := S754_finite false 8388608 (-23).

(** The bit pattern of a float, as the four bytes kept in memory. *)
Definition sign_bit (s : bool) : Z := if s then 2147483648 else 0.

Definition to_bits (f : float) : Z :=
  match f with
  | S754_zero s => sign_bit s
  | S754_infinity s => sign_bit s + 2139095040
  | S754_nan => 2143289344
  | S754_finite s m e =>
      if Z.pos m <? 8388608 then sign_bit s + Z.pos m
      else sign_bit s + (e + 150) * 8388608 + (Z.pos m - 8388608)
  end.

Definition of_bits (x : Z) : float :=
  let s := Z.testbit x 31 in
  let ex := Z.land (Z.shiftr x 23) 255 in
  let mx := Z.land x 8388607 in
  if ex =? 0 then
    match mx with
    | Z.pos m => S754_finite s m (-149)
    | _ => S754_zero s
    end
  else if ex =? 255 then
    if mx =? 0 then S754_infinity s else S754_nan
  else
    match mx + 8388608 with
    | Z.pos m => S754_finite s m (ex - 150)
    | _ => S754_nan
    end.

End F32.

Arguments F32.mul : simpl never.
Arguments F32.add : simpl never.
Arguments F32.sub : simpl never.
Arguments F32.div : simpl never.
Arguments F32.opp : simpl never.
Arguments F32.ltb : simpl never.
Arguments F32.of_Z : simpl never.
Arguments F32.to_bits : simpl never.
Arguments F32.of_bits : simpl never.
Arguments AVR.to_int : simpl never.
Arguments AVR.to_long : simpl never.
Arguments AVR.to_char : simpl never.

(** ** The EEPROM and its typed accessors

    [EEPROM.get] and [EEPROM.put] copy [sizeof(T)] bytes, least significant
    first; [put] goes through [update], which leaves a cell alone when it
    already holds the byte.  An erased cell reads 255. *)

Module EEPROM.

Definition read (e : gmap Z Z) (a : Z) : Z := default 255 (e !! a).

Definition update (a b : Z) (e : gmap Z Z) : gmap Z Z :=
  if read e a =? b then e else <[a := b]> e.

Definition byte_of (v : Z) (i : Z) : Z := (v / 256 ^ i) mod 256.

Definition put_int (a v : Z) (e : gmap Z Z) : gmap Z Z :=
  update (a + 1) (byte_of v 1) (update a (byte_of v 0) e).

Definition put_word32 (a v : Z) (e : gmap Z Z) : gmap Z Z :=
  update (a + 3) (byte_of v 3)
    (update (a + 2) (byte_of v 2)
      (update (a + 1) (byte_of v 1)
        (update a (byte_of v 0) e))).

Definition get_word16 (e : gmap Z Z) (a : Z) : Z :=
  read e a + 256 * read e (a + 1).

Definition get_word32 (e : gmap Z Z) (a : Z) : Z :=
  read e a + 256 * read e (a + 1) + 65536 * read e (a + 2)
  + 16777216 * read e (a + 3).

Definition get_int (e : gmap Z Z) (a : Z) : Z := AVR.to_int (get_word16 e a).
Definition get_long (e : gmap Z Z) (a : Z) : Z := AVR.to_long (get_word32 e a).
Definition put_long (a v : Z) (e : gmap Z Z) : gmap Z Z := put_word32 a v e.
Definition get_float (e : gmap Z Z) (a : Z) : F32.float :=
  F32.of_bits (get_word32 e a).
Definition put_float (a : Z) (f : F32.float) (e : gmap Z Z) : gmap Z Z :=
  put_word32 a (F32.to_bits f) e.

End EEPROM.

Arguments EEPROM.get_int : simpl never.
Arguments EEPROM.get_long : simpl never.
Arguments EEPROM.get_float : simpl never.
Arguments EEPROM.put_int : simpl never.
Arguments EEPROM.put_long : simpl never.
Arguments EEPROM.put_float : simpl never.

(** ** The global variables of the sketch *)

Record state : Type := mkState {
  gotADCValue : bool; (* set in the ISR when the ADC has a new value *)
  cmdChar : Z; (* user command via USB serial (char) *)
  ADCVal : Z; (* latest ADC reading (int) *)
  ADCValSum : Z; (* running sum of ADC readings (long) *)
  ADCVal0 : Z; (* raw sum before offset correction (long) *)
  ADCHigh : Z; (* highest ADC reading (long) *)
  ADCLow : Z; (* lowest ADC reading (long) *)
  sample : Z; (* number of samples so far (int) *)
  Amps : F32.float; (* calibrated reading *)
  VScale : F32.float; (* calibrated volts per ADC bit *)
  ADCCal : F32.float; (* scale factor *)
  ADCOffset : Z; (* sum of nSample zero-input readings (long) *)
  fADCOffset : F32.float; (* offset of one reading *)
  SerialDisplay : bool; (* serial logging on *)
  eeprom : gmap Z Z; (* contents of the EEPROM *)
  pinLED : bool; (* level driven on LEDPin *)
  pinNeg : bool (* level driven on negPin *)
}.

(** Assignment to one global. *)
Definition set_gotADCValue (v : bool) (s : state) : state :=
  {| gotADCValue := v; cmdChar := cmdChar s; ADCVal := ADCVal s;
     ADCValSum := ADCValSum s; ADCVal0 := ADCVal0 s; ADCHigh := ADCHigh s;
     ADCLow := ADCLow s; sample := sample s; Amps := Amps s;
     VScale := VScale s; ADCCal := ADCCal s; ADCOffset := ADCOffset s;
     fADCOffset := fADCOffset s; SerialDisplay := SerialDisplay s;
     eeprom := eeprom s; pinLED := pinLED s; pinNeg := pinNeg s |}.
Definition set_cmdChar (v : Z) (s : state) : state :=
  {| gotADCValue := gotADCValue s; cmdChar := v; ADCVal := ADCVal s;
     ADCValSum := ADCValSum s; ADCVal0 := ADCVal0 s; ADCHigh := ADCHigh s;
     ADCLow := ADCLow s; sample := sample s; Amps := Amps s;
     VScale := VScale s; ADCCal := ADCCal s; ADCOffset := ADCOffset s;
     fADCOffset := fADCOffset s; SerialDisplay := SerialDisplay s;
     eeprom := eeprom s; pinLED := pinLED s; pinNeg := pinNeg s |}.
Definition set_ADCVal (v : Z) (s : state) : state :=
  {| gotADCValue := gotADCValue s; cmdChar := cmdChar s; ADCVal := v;
     ADCValSum := ADCValSum s; ADCVal0 := ADCVal0 s; ADCHigh := ADCHigh s;
     ADCLow := ADCLow s; sample := sample s; Amps := Amps s;
     VScale := VScale s; ADCCal := ADCCal s; ADCOffset := ADCOffset s;
     fADCOffset := fADCOffset s; SerialDisplay := SerialDisplay s;
     eeprom := eeprom s; pinLED := pinLED s; pinNeg := pinNeg s |}.
Definition set_ADCValSum (v : Z) (s : state) : state :=
  {| gotADCValue := gotADCValue s; cmdChar := cmdChar s; ADCVal := ADCVal s;
     ADCValSum := v; ADCVal0 := ADCVal0 s; ADCHigh := ADCHigh s;
     ADCLow := ADCLow s; sample := sample s; Amps := Amps s;
     VScale := VScale s; ADCCal := ADCCal s; ADCOffset := ADCOffset s;
     fADCOffset := fADCOffset s; SerialDisplay := SerialDisplay s;
     eeprom := eeprom s; pinLED := pinLED s; pinNeg := pinNeg s |}.
Definition set_ADCVal0 (v : Z) (s : state) : state :=
  {| gotADCValue := gotADCValue s; cmdChar := cmdChar s; ADCVal := ADCVal s;
     ADCValSum := ADCValSum s; ADCVal0 := v; ADCHigh := ADCHigh s;
     ADCLow := ADCLow s; sample := sample s; Amps := Amps s;
     VScale := VScale s; ADCCal := ADCCal s; ADCOffset := ADCOffset s;
     fADCOffset := fADCOffset s; SerialDisplay := SerialDisplay s;
     eeprom := eeprom s; pinLED := pinLED s; pinNeg := pinNeg s |}.
Definition set_ADCHigh (v : Z) (s : state) : state :=
  {| gotADCValue := gotADCValue s; cmdChar := cmdChar s; ADCVal := ADCVal s;
     ADCValSum := ADCValSum s; ADCVal0 := ADCVal0 s; ADCHigh := v;
     ADCLow := ADCLow s; sample := sample s; Amps := Amps s;
     VScale := VScale s; ADCCal := ADCCal s; ADCOffset := ADCOffset s;
     fADCOffset := fADCOffset s; SerialDisplay := SerialDisplay s;
     eeprom := eeprom s; pinLED := pinLED s; pinNeg := pinNeg s |}.
Definition set_ADCLow (v : Z) (s : state) : state :=
  {| gotADCValue := gotADCValue s; cmdChar := cmdChar s; ADCVal := ADCVal s;
     ADCValSum := ADCValSum s; ADCVal0 := ADCVal0 s; ADCHigh := ADCHigh s;
     ADCLow := v; sample := sample s; Amps := Amps s; VScale := VScale s;
     ADCCal := ADCCal s; ADCOffset := ADCOffset s;
     fADCOffset := fADCOffset s; SerialDisplay := SerialDisplay s;
     eeprom := eeprom s; pinLED := pinLED s; pinNeg := pinNeg s |}.
Definition set_sample (v : Z) (s : state) : state :=
  {| gotADCValue := gotADCValue s; cmdChar := cmdChar s; ADCVal := ADCVal s;
     ADCValSum := ADCValSum s; ADCVal0 := ADCVal0 s; ADCHigh := ADCHigh s;
     ADCLow := ADCLow s; sample := v; Amps := Amps s; VScale := VScale s;
     ADCCal := ADCCal s; ADCOffset := ADCOffset s;
     fADCOffset := fADCOffset s; SerialDisplay := SerialDisplay s;
     eeprom := eeprom s; pinLED := pinLED s; pinNeg := pinNeg s |}.
Definition set_Amps (v : F32.float) (s : state) : state :=
  {| gotADCValue := gotADCValue s; cmdChar := cmdChar s; ADCVal := ADCVal s;
     ADCValSum := ADCValSum s; ADCVal0 := ADCVal0 s; ADCHigh := ADCHigh s;
     ADCLow := ADCLow s; sample := sample s; Amps := v; VScale := VScale s;
     ADCCal := ADCCal s; ADCOffset := ADCOffset s;
     fADCOffset := fADCOffset s; SerialDisplay := SerialDisplay s;
     eeprom := eeprom s; pinLED := pinLED s; pinNeg := pinNeg s |}.
Definition set_VScale (v : F32.float) (s : state) : state :=
  {| gotADCValue := gotADCValue s; cmdChar := cmdChar s; ADCVal := ADCVal s;
     ADCValSum := ADCValSum s; ADCVal0 := ADCVal0 s; ADCHigh := ADCHigh s;
     ADCLow := ADCLow s; sample := sample s; Amps := Amps s; VScale := v;
     ADCCal := ADCCal s; ADCOffset := ADCOffset s;
     fADCOffset := fADCOffset s; SerialDisplay := SerialDisplay s;
     eeprom := eeprom s; pinLED := pinLED s; pinNeg := pinNeg s |}.
Definition set_ADCCal (v : F32.float) (s : state) : state :=
  {| gotADCValue := gotADCValue s; cmdChar := cmdChar s; ADCVal := ADCVal s;
     ADCValSum := ADCValSum s; ADCVal0 := ADCVal0 s; ADCHigh := ADCHigh s;
     ADCLow := ADCLow s; sample := sample s; Amps := Amps s;
     VScale := VScale s; ADCCal := v; ADCOffset := ADCOffset s;
     fADCOffset := fADCOffset s; SerialDisplay := SerialDisplay s;
     eeprom := eeprom s; pinLED := pinLED s; pinNeg := pinNeg s |}.
Definition set_ADCOffset (v : Z) (s : state) : state :=
  {| gotADCValue := gotADCValue s; cmdChar := cmdChar s; ADCVal := ADCVal s;
     ADCValSum := ADCValSum s; ADCVal0 := ADCVal0 s; ADCHigh := ADCHigh s;
     ADCLow := ADCLow s; sample := sample s; Amps := Amps s;
     VScale := VScale s; ADCCal := ADCCal s; ADCOffset := v;
     fADCOffset := fADCOffset s; SerialDisplay := SerialDisplay s;
     eeprom := eeprom s; pinLED := pinLED s; pinNeg := pinNeg s |}.
Definition set_fADCOffset (v : F32.float) (s : state) : state :=
  {| gotADCValue := gotADCValue s; cmdChar := cmdChar s; ADCVal := ADCVal s;
     ADCValSum := ADCValSum s; ADCVal0 := ADCVal0 s; ADCHigh := ADCHigh s;
     ADCLow := ADCLow s; sample := sample s; Amps := Amps s;
     VScale := VScale s; ADCCal := ADCCal s; ADCOffset := ADCOffset s;
     fADCOffset := v; SerialDisplay := SerialDisplay s; eeprom := eeprom s;
     pinLED := pinLED s; pinNeg := pinNeg s |}.
Definition set_SerialDisplay (v : bool) (s : state) : state :=
  {| gotADCValue := gotADCValue s; cmdChar := cmdChar s; ADCVal := ADCVal s;
     ADCValSum := ADCValSum s; ADCVal0 := ADCVal0 s; ADCHigh := ADCHigh s;
     ADCLow := ADCLow s; sample := sample s; Amps := Amps s;
     VScale := VScale s; ADCCal := ADCCal s; ADCOffset := ADCOffset s;
     fADCOffset := fADCOffset s; SerialDisplay := v; eeprom := eeprom s;
     pinLED := pinLED s; pinNeg := pinNeg s |}.
Definition set_eeprom (v : gmap Z Z) (s : state) : state :=
  {| gotADCValue := gotADCValue s; cmdChar := cmdChar s; ADCVal := ADCVal s;
     ADCValSum := ADCValSum s; ADCVal0 := ADCVal0 s; ADCHigh := ADCHigh s;
     ADCLow := ADCLow s; sample := sample s; Amps := Amps s;
     VScale := VScale s; ADCCal := ADCCal s; ADCOffset := ADCOffset s;
     fADCOffset := fADCOffset s; SerialDisplay := SerialDisplay s;
     eeprom := v; pinLED := pinLED s; pinNeg := pinNeg s |}.
Definition set_pinLED (v : bool) (s : state) : state :=
  {| gotADCValue := gotADCValue s; cmdChar := cmdChar s; ADCVal := ADCVal s;
     ADCValSum := ADCValSum s; ADCVal0 := ADCVal0 s; ADCHigh := ADCHigh s;
     ADCLow := ADCLow s; sample := sample s; Amps := Amps s;
     VScale := VScale s; ADCCal := ADCCal s; ADCOffset := ADCOffset s;
     fADCOffset := fADCOffset s; SerialDisplay := SerialDisplay s;
     eeprom := eeprom s; pinLED := v; pinNeg := pinNeg s |}.
Definition set_pinNeg (v : bool) (s : state) : state :=
  {| gotADCValue := gotADCValue s; cmdChar := cmdChar s; ADCVal := ADCVal s;
     ADCValSum := ADCValSum s; ADCVal0 := ADCVal0 s; ADCHigh := ADCHigh s;
     ADCLow := ADCLow s; sample := sample s; Amps := Amps s;
     VScale := VScale s; ADCCal := ADCCal s; ADCOffset := ADCOffset s;
     fADCOffset := fADCOffset s; SerialDisplay := SerialDisplay s;
     eeprom := eeprom s; pinLED := pinLED s; pinNeg := v |}.

(** ** Calls made to the peripherals

    Everything the sketch sends to the outside world is recorded, in order,
    as a trace of calls.  [sprintf] into [astr] followed by [Serial.print]
    is one [PFmt] item holding the format and the arguments passed. *)

Inductive fmt_arg : Type :=
| ArgLong (z : Z)
| ArgFloat (f : F32.float).

Inductive printable : Type :=
| PStr (s : string)
| PChar (c : Z)
| PByte (b : Z)
| PInt (n : Z)
| PFloat (f : F32.float) (digits : Z)
| PFmt (fmt : string) (args : list fmt_arg).

Inductive ads_call : Type :=
| ads_begin
| ads_setMode (m : Z)
| ads_setDataRate (r : Z)
| ads_setComparatorThresholdLow (v : Z)
| ads_setComparatorThresholdHigh (v : Z)
| ads_setComparatorQueConvert (v : Z)
| ads_setComparatorLatch (v : Z)
| ads_setGain (g : Z)
| ads_requestADC_Differential_0_1.

Inductive event : Type :=
| Serial_begin (baud : Z)
| Serial_print (p : printable)
| Serial_println (p : printable)
| Serial_newline
| ads1115 (c : ads_call)
| pinMode_OUTPUT (pin : Z)
| digitalWrite (pin : Z) (level : bool)
| attachInterrupt_RISING (pin : Z)
| AmpDisplay_begin (addr : Z)
| AmpDisplay_print (f : F32.float) (digits : Z)
| AmpDisplay_writeDisplay
| delay (ms : Z)
| Default (f : F32.float)
| getFloat_call (bound : Z).

(** ** Constants of the sketch *)

Definition vers : string := "CurrentMeter v1.2".

Definition LEDPin : Z := 13.
Definition ADCreadyPin : Z := 3.
Definition negPin : Z := 2.

Definition GAIN_ONE : Z := 1.
Definition SPS860 : Z := 7.
Definition DISPLAY_ADDRESS : Z := 112.

(** [FSR2 = 4.096], the binary32 number nearest to it. *)
Definition FSR2 : F32.float := S754_finite false 8589935 (-21).
Definition ADCFull : F32.float := F32.of_Z 32767.
Definition VFull : F32.float := FSR2.
Definition sampleMode : Z := SPS860.
Definition frequency : Z := 860.
Definition nSample : Z := 430.

Definition EEPROMFlag : Z := 12345.
Definition EEPROMProgrammedFlagAddr : Z := 0.
Definition ADCCalAddr : Z := EEPROMProgrammedFlagAddr + AVR.sizeof_int.
Definition ADCOffsetAddr : Z := ADCCalAddr + AVR.sizeof_float.

(** The literal [0.001] of [Display_parameters]. *)
Definition milli : F32.float := F32.div (F32.of_Z 1) (F32.of_Z 1000).

(** ** Procedures: state transformers with a trace *)

Definition Proc : Type := state -> state * list event.

Definition skip : Proc := fun s => (s, []).
Definition emit (e : event) : Proc := fun s => (s, [e]).
Definition emitf (e : state -> event) : Proc := fun s => (s, [e s]).
Definition assign (f : state -> state) : Proc := fun s => (f s, []).
Definition seq (p q : Proc) : Proc :=
  fun s => let (s1, o1) := p s in let (s2, o2) := q s1 in (s2, o1 ++ o2).
Definition ifs (c : state -> bool) (p q : Proc) : Proc :=
  fun s => if c s then p s else q s.

Notation "p >> q" := (seq p q) (at level 85, right associativity).

Definition println (str : string) : Proc := emit (Serial_println (PStr str)).
Definition print (str : string) : Proc := emit (Serial_print (PStr str)).

(** ** The helper procedures *)

Definition echo : Proc :=
  emitf (fun s => Serial_print (PChar (cmdChar s))) >> emit Serial_newline.

Definition prompt : Proc :=
  emit Serial_newline >> print "> ".

Definition header_rule : string :=
  "=======,   ====   ,   ====   ,   ===    ,   =====".
Definition header_names : string :=
  "ADC nom,   Amps   ,   High   ,   Low    ,   Delta".

Definition Display_Header : Proc :=
  ifs (fun s => negb (SerialDisplay s)) (println header_rule) (emit Serial_newline) >>
  println header_names >>
  ifs SerialDisplay (println header_rule) skip.

(** The two float columns of the log that are derived from the extrema. *)
Definition highVolts (s : state) : F32.float :=
  F32.mul (VScale s) (F32.add (F32.of_Z (ADCHigh s)) (fADCOffset s)).
Definition lowVolts (s : state) : F32.float :=
  F32.mul (VScale s) (F32.add (F32.of_Z (ADCLow s)) (fADCOffset s)).

Definition Print_Data : Proc :=
  emitf (fun s => Serial_print
    (PFmt "%6d , " [ArgLong (ADCValSum s ÷ sample s)])) >>
  emitf (fun s => Serial_print
    (PFmt "%8.4f , %8.4f , " [ArgFloat (Amps s); ArgFloat (highVolts s)])) >>
  emitf (fun s => Serial_println
    (PFmt "%8.4f , %8.4f"
       [ArgFloat (lowVolts s); ArgFloat (F32.sub (highVolts s) (lowVolts s))])).

Definition Display_parameters : Proc :=
  emit Serial_newline >>
  println vers >>
  print "Sample rate (Samp/s):   " >> emit (Serial_println (PInt frequency)) >>
  print "Number of samples:      " >> emit (Serial_println (PInt nSample)) >>
  print "Calibrated bits/mA:     " >>
  emitf (fun s => Serial_println (PFloat (F32.div milli (VScale s)) 3)) >>
  print "ADC offset:             " >>
  emitf (fun s => Serial_print (PInt (ADCOffset s))) >>
  print "  (" >>
  emitf (fun s => Serial_print (PFloat (fADCOffset s) 3)) >>
  println ")" >>
  print "ADC scale factor:       " >>
  emitf (fun s => Serial_println (PFloat (ADCCal s) 3)) >>
  print "USB serial output:      " >>
  ifs SerialDisplay (println "On") (println "Off") >>
  emit (delay 200).

(** [VScale = ADCCal * VFull / ADCFull]. *)
Definition update_VScale : Proc :=
  assign (fun s => set_VScale (F32.div (F32.mul (ADCCal s) VFull) ADCFull) s).

(** [fADCOffset = float(ADCOffset)/float(nSample)]. *)
Definition update_fADCOffset : Proc :=
  assign (fun s =>
    set_fADCOffset (F32.div (F32.of_Z (ADCOffset s)) (F32.of_Z nSample)) s).

Definition put_ADCOffset : Proc :=
  assign (fun s =>
    set_eeprom (EEPROM.put_long ADCOffsetAddr (ADCOffset s) (eeprom s)) s).

Definition put_ADCCal : Proc :=
  assign (fun s =>
    set_eeprom (EEPROM.put_float ADCCalAddr (ADCCal s) (eeprom s)) s).

(** [Set_Scale].  [getFloat] and [Default] are not part of the sketch file:
    the call to [Default] is kept in the trace, and what the blocking read
    [getFloat(&aflt, 10000)] gives back, the status [ier] and the content
    of [aflt] after the call, is the argument [rd]. *)
Definition Set_Scale (rd : Z * F32.float) : Proc :=
  let (ier, aflt) := rd in
  print "Enter scale factor" >> emitf (fun s => Default (ADCCal s)) >>
  emit (getFloat_call 10000) >>
  emit Serial_newline >>
  (if ier >? 0 then
     assign (set_ADCCal aflt) >>
     put_ADCCal >>
     update_VScale >>
     print "Scale factor (ADCCal) = " >>
     emitf (fun s => Serial_println (PFloat (ADCCal s) 4))
   else
     print "Scale factor not updated = " >>
     emitf (fun s => Serial_println (PFloat (ADCCal s) 4))).

(** The interrupt routine. *)
Definition ADCread : Proc := assign (set_gotADCValue true).

(** [digitalWrite] on one of the two output pins the sketch drives. *)
Definition write_LEDPin (level : bool) : Proc :=
  assign (set_pinLED level) >> emit (digitalWrite LEDPin level).
Definition write_negPin (level : bool) : Proc :=
  assign (set_pinNeg level) >> emit (digitalWrite negPin level).

(** ** [setup] *)

(** The globals at reset: zero-initialised, with the EEPROM as found. *)
Definition reset_state (e : gmap Z Z) : state :=
  {| gotADCValue := false; cmdChar := 0; ADCVal := 0; ADCValSum := 0;
     ADCVal0 := 0; ADCHigh := 0; ADCLow := 0; sample := 0;
     Amps := F32.zero; VScale := F32.zero; ADCCal := F32.zero;
     ADCOffset := 0; fADCOffset := F32.zero; SerialDisplay := false;
     eeprom := e; pinLED := false; pinNeg := false |}.

(** The branch of [setup] taken when the flag read from the EEPROM is not
    [EEPROMFlag]. *)
Definition load_defaults : Proc :=
  print "Loading defaults to EEPROM..." >>
  assign (fun s =>
    set_eeprom (EEPROM.put_int EEPROMProgrammedFlagAddr EEPROMFlag (eeprom s)) s) >>
  assign (set_ADCOffset 0) >>
  put_ADCOffset >>
  assign (set_ADCCal F32.one) >>
  put_ADCCal >>
  println " Done.".

Definition setup : Proc :=
  emit (Serial_begin 115200) >>
  println vers >>
  emit (ads1115 ads_begin) >>
  emit (pinMode_OUTPUT LEDPin) >>
  write_LEDPin false >>
  ifs (fun s => negb (EEPROM.get_int (eeprom s) EEPROMProgrammedFlagAddr =? EEPROMFlag))
    load_defaults skip >>
  assign (fun s => set_ADCOffset (EEPROM.get_long (eeprom s) ADCOffsetAddr) s) >>
  update_fADCOffset >>
  assign (fun s => set_ADCCal (EEPROM.get_float (eeprom s) ADCCalAddr) s) >>
  update_VScale >>
  emit (ads1115 (ads_setMode 0)) >>
  emit (ads1115 (ads_setDataRate sampleMode)) >>
  emit (attachInterrupt_RISING ADCreadyPin) >>
  assign (set_ADCHigh (-32768)) >>
  assign (set_ADCLow 32767) >>
  emit (ads1115 (ads_setComparatorThresholdLow 0)) >>
  emit (ads1115 (ads_setComparatorThresholdHigh 32768)) >>
  emit (ads1115 (ads_setComparatorQueConvert 0)) >>
  emit (ads1115 (ads_setComparatorLatch 0)) >>
  emit (ads1115 (ads_setGain GAIN_ONE)) >>
  emit (ads1115 ads_requestADC_Differential_0_1) >>
  emit (AmpDisplay_begin DISPLAY_ADDRESS) >>
  emit (pinMode_OUTPUT negPin) >>
  println "(Press ? for menu)" >>
  prompt.

(** The state in which [loop] is first entered. *)
Definition boot (e : gmap Z Z) : state := fst (setup (reset_state e)).

(** ** [loop]: the acquisition half *)

(** Taking one reading [v = ads1115.getValue()] into the open window. *)
Definition accumulate (v : Z) : Proc :=
  assign (set_gotADCValue false) >>
  assign (set_ADCVal v) >>
  ifs (fun s => ADCVal s >? ADCHigh s)
    (assign (fun s => set_ADCHigh (ADCVal s) s)) skip >>
  ifs (fun s => ADCVal s <? ADCLow s)
    (assign (fun s => set_ADCLow (ADCVal s) s)) skip >>
  assign (fun s => set_ADCValSum (AVR.to_long (ADCValSum s + ADCVal s)) s) >>
  assign (fun s => set_sample (AVR.to_int (sample s + 1)) s).

(** The body of [if (sample >= nSample)]: consume the window and reset. *)
Definition window_complete : Proc :=
  assign (fun s => set_ADCVal0 (ADCValSum s) s) >>
  assign (fun s => set_ADCValSum (AVR.to_long (ADCValSum s + ADCOffset s)) s) >>
  assign (fun s =>
    set_Amps (F32.mul (VScale s) (F32.of_Z (ADCValSum s ÷ sample s))) s) >>
  ifs (fun s => F32.ltb (Amps s) F32.zero)
    (emitf (fun s => AmpDisplay_print (F32.opp (Amps s)) 3) >>
     write_negPin true)
    (emitf (fun s => AmpDisplay_print (Amps s) 3) >>
     write_negPin false) >>
  emit AmpDisplay_writeDisplay >>
  (fun s => write_LEDPin (negb (pinLED s)) s) >>
  ifs SerialDisplay Print_Data skip >>
  assign (set_ADCValSum 0) >>
  assign (set_ADCHigh (-32768)) >>
  assign (set_ADCLow 32767) >>
  assign (set_sample 0).

Definition loop_adc (v : Z) : Proc :=
  ifs gotADCValue
    (accumulate v >>
     ifs (fun s => sample s >=? nSample) window_complete skip)
    skip.

(** ** [loop]: the command half *)

Definition banner : Proc :=
  emit Serial_newline >> println vers >> println "(Press ? for menu)".

Definition help : Proc :=
  println "H - Display this help menu" >>
  println "G - Set gain (scale factor)" >>
  println "! (shift 1) - Set gain to 1.0" >>
  println "O - Capture offset" >>
  println ") (shift 0) - Set offset to 0" >>
  println "P - Display Parameters" >>
  println "S - Toggle serial logging" >>
  println "K - Kick the ADC if it's not running".

(** The [switch (cmdChar)], in two parts: the table of case labels and the
    statements of each group of labels. *)
Inductive cmd : Type :=
| Cmd_banner
| Cmd_help
| Cmd_gain
| Cmd_kick
| Cmd_zero_offset
| Cmd_unit_gain
| Cmd_capture_offset
| Cmd_parameters
| Cmd_toggle_log
| Cmd_unknown.

Definition decode (c : Z) : cmd :=
  match c with
  | 13 | 10 => Cmd_banner
  | 63 | 47 | 72 | 104 => Cmd_help                 (* ? / H h *)
  | 71 | 103 => Cmd_gain                           (* G g *)
  | 75 | 107 => Cmd_kick                           (* K k *)
  | 41 => Cmd_zero_offset                          (* ) *)
  | 33 => Cmd_unit_gain                            (* ! *)
  | 79 | 111 => Cmd_capture_offset                 (* O o *)
  | 80 | 112 => Cmd_parameters                     (* P p *)
  | 83 | 115 => Cmd_toggle_log                     (* S s *)
  | _ => Cmd_unknown
  end.

(** [rd] is what [getFloat] returns if [Set_Scale] runs. *)
Definition dispatch (k : cmd) (rd : Z * F32.float) : Proc :=
  match k with
  | Cmd_banner =>
      banner >> prompt
  | Cmd_help =>
      echo >> help >> prompt
  | Cmd_gain =>
      echo >> emit (delay 100) >> Set_Scale rd >> prompt
  | Cmd_kick =>
      echo >> emit (ads1115 ads_requestADC_Differential_0_1) >>
      println "Kicked ADC." >> prompt
  | Cmd_zero_offset =>
      echo >> assign (set_ADCOffset 0) >> put_ADCOffset >>
      update_fADCOffset >> println "Offset set to zero." >> prompt
  | Cmd_unit_gain =>
      echo >> assign (set_ADCCal F32.one) >> put_ADCCal >>
      update_VScale >> println "Gain set to one." >> prompt
  | Cmd_capture_offset =>
      echo >>
      assign (fun s => set_ADCOffset (AVR.to_long (- ADCVal0 s)) s) >>
      put_ADCOffset >> update_fADCOffset >>
      println "Offset captured and saved." >> prompt
  | Cmd_parameters =>
      echo >> Display_parameters >> prompt
  | Cmd_toggle_log =>
      assign (fun s => set_SerialDisplay (negb (SerialDisplay s)) s) >>
      Display_Header
  | Cmd_unknown =>
      ifs (fun s => (cmdChar s >? 32) && (cmdChar s <? 127))
        (emitf (fun s => Serial_print (PChar (cmdChar s))))
        (emitf (fun s => Serial_print (PByte (AVR.to_byte (cmdChar s))))) >>
      print " ??" >> prompt
  end.

Definition command (rd : Z * F32.float) : Proc :=
  fun s => dispatch (decode (cmdChar s)) rd s.

(** [rx] holds the bytes waiting in the serial buffer: the first becomes
    [cmdChar], the others are flushed. *)
Definition loop_serial (rx : list Z) (rd : Z * F32.float) : Proc :=
  match rx with
  | [] => skip
  | c :: _ => assign (set_cmdChar (AVR.to_char c)) >> command rd
  end.

Definition loop (v : Z) (rx : list Z) (rd : Z * F32.float) : Proc :=
  loop_adc v >> loop_serial rx rd.

(** ** Running the sketch

    What happens around one pass through [loop]: whether the ready
    interrupt fired since the previous pass, the code the converter holds,
    the bytes waiting on the serial line and the outcome of the numeric
    read, should the pass ask for one. *)
Record input : Type := mkInput {
  isr : bool;
  adc : Z;
  rx : list Z;
  dialog : Z * F32.float
}.

Definition pass (i : input) : Proc :=
  (if isr i then ADCread else skip) >> loop (adc i) (rx i) (dialog i).

Fixpoint run (ins : list input) : Proc :=
  match ins with
  | [] => skip
  | i :: ins' => pass i >> run ins'
  end.

(** A pass in which a sample is ready and nothing waits on the serial line. *)
Definition sample_in (v : Z) : input :=
  {| isr := true; adc := v; rx := []; dialog := (0, F32.zero) |}.

(** A pass with no sample and one command byte. *)
Definition key_in (c : Z) : input :=
  {| isr := false; adc := 0; rx := [c]; dialog := (0, F32.zero) |}.

(** ** The numeric read of the scale-factor dialog *)

(** Modelled from the spec: [getFloat], the blocking read that
    [Set_Scale] calls as [getFloat(&aflt, 10000)], is not in the sketch
    file.  The specification has it accept a token that parses to a finite
    number whose magnitude is within the bound, and reject a token that
    does not parse or is out of bound.  [token] is the parse of what was
    typed ([None] when it is not a number) and [aflt] the content of the
    caller's variable before the call; the status is positive on
    acceptance, which is how [Set_Scale] tests it, and the variable is
    written only then. *)
Definition is_finite (x : F32.float) : bool :=
  match x with
  | S754_zero _ | S754_finite _ _ _ => true
  | S754_infinity _ | S754_nan => false
  end.

Definition getFloat (token : option F32.float) (bound : Z) (aflt : F32.float)
  : Z * F32.float :=
  match token with
  | None => (0, aflt)
  | Some x =>
      if is_finite x && negb (F32.ltb (F32.of_Z bound) (SFabs x))
      then (1, x)
      else (0, aflt)
  end.

(** ** Vocabulary of the statements *)

Fixpoint sumZ (l : list Z) : Z :=
  match l with
  | [] => 0
  | x :: t => x + sumZ t
  end.

(** The window as [setup] and every completed window leave it. *)
Definition fresh_window (s : state) : Prop :=
  ADCValSum s = 0 /\ sample s = 0 /\ ADCHigh s = -32768 /\ ADCLow s = 32767.

(** The globals that taking a sample into an open window never touches. *)
Definition untouched (s : state) :=
  (cmdChar s, ADCVal0 s, Amps s, VScale s, ADCCal s, ADCOffset s,
   fADCOffset s, SerialDisplay s, eeprom s, pinLED s, pinNeg s).

(** The calibration, in memory and in the store. *)
Definition calibration (s : state) :=
  (ADCOffset s, fADCOffset s, ADCCal s, VScale s, eeprom s).

(** The window, as the acquisition half of [loop] keeps it. *)
Definition window (s : state) :=
  (gotADCValue s, ADCValSum s, ADCVal0 s, ADCHigh s, ADCLow s, sample s).

(** The greatest and the least element of a non-empty list. *)
Definition maxZ (l : list Z) : Z :=
  match l with
  | [] => 0
  | x :: t => fold_left Z.max t x
  end.
Definition minZ (l : list Z) : Z :=
  match l with
  | [] => 0
  | x :: t => fold_left Z.min t x
  end.

(** What the display and the sign LED are sent for a reading [amps]. *)
Definition display_trace (amps : F32.float) : list event :=
  [AmpDisplay_print (if F32.ltb amps F32.zero then F32.opp amps else amps) 3;
   digitalWrite negPin (F32.ltb amps F32.zero);
   AmpDisplay_writeDisplay].

(** One line of the log, from the values of its columns. *)
Definition log_record (mean : Z) (amps high low : F32.float) : list event :=
  [Serial_print (PFmt "%6d , " [ArgLong mean]);
   Serial_print (PFmt "%8.4f , %8.4f , " [ArgFloat amps; ArgFloat high]);
   Serial_println
     (PFmt "%8.4f , %8.4f" [ArgFloat low; ArgFloat (F32.sub high low)])].

(** The [long] values handed to [sprintf] as the one argument of a format
    (in the sketch: of ["%6d , "], the first column of the log), in the
    order of the calls. *)
Fixpoint log_means (o : list event) : list Z :=
  match o with
  | [] => []
  | Serial_print (PFmt _ [ArgLong m]) :: o' => m :: log_means o'
  | _ :: o' => log_means o'
  end.

(** What ["%d"] prints for such an argument.  On this target an [int] is
    one 16-bit word and ["%d"] takes one [int] from the argument list, so
    of a [long] it reads the low-order word, as a signed number: 100 is
    printed as 100, 65535 as -1. *)
Definition printf_d (arg : Z) : Z := AVR.to_int arg.

(** The numbers that appear in the first column of the log. *)
Definition printed_means (o : list event) : list Z :=
  List.map printf_d (log_means o).

Definition in_int_range (z : Z) : bool := (-32768 <=? z) && (z <=? 32767).

Definition in_long_range (z : Z) : bool :=
  (-2147483648 <=? z) && (z <=? 2147483647).

(** Sample data: a rising ramp of 429 readings, and the state reached from
    a factory-fresh EEPROM by a window of readings of -100, a capture of
    the offset (which becomes 43000) and the logging toggle. *)
Definition ramp : list Z :=
  List.map (fun n => Z.of_nat n * 7 - 1500) (List.seq 0 429).

Definition logging_state : state :=
  fst (run [key_in 115] (boot ∅)).

Definition offset_state : state :=
  fst (run (List.map sample_in (repeat (-100) 430) ++ [key_in 79; key_in 115])
         (boot ∅)).

Definition prompt_trace : list event :=
  [Serial_newline; Serial_print (PStr "> ")].

Definition ends_with_prompt (o : list event) : Prop :=
  exists o', o = o' ++ prompt_trace.

(** How many passes of a run took a sample. *)
Definition samples_taken (ins : list input) : Z :=
  Z.of_nat (length (List.filter isr ins)).

(** ** Vocabulary of the further properties *)

(** A well-formed binary32 value: a finite number has its mantissa and
    exponent in canonical form. *)
Definition valid32 (f : F32.float) : bool := valid_binary F32.prec F32.emax f.

(** The calibration in memory agrees with the store, the derived values
    agree with the calibration, and the store is marked as programmed. *)
Definition consistent (s : state) : Prop :=
  EEPROM.get_int (eeprom s) EEPROMProgrammedFlagAddr = EEPROMFlag /\
  ADCOffset s = EEPROM.get_long (eeprom s) ADCOffsetAddr /\
  ADCCal s = EEPROM.get_float (eeprom s) ADCCalAddr /\
  fADCOffset s = F32.div (F32.of_Z (ADCOffset s)) (F32.of_Z nSample) /\
  VScale s = F32.div (F32.mul (ADCCal s) VFull) ADCFull.

(** The value a pass would store if its dialog were accepted is
    well-formed. *)
Definition valid_dialog (i : input) : bool := valid32 (snd (dialog i)).

(** How often the display was written in a trace. *)
Fixpoint display_writes (o : list event) : Z :=
  match o with
  | [] => 0
  | AmpDisplay_writeDisplay :: o' => 1 + display_writes o'
  | _ :: o' => display_writes o'
  end.

(** The calls of a trace that go to the serial port. *)
Definition is_serial (ev : event) : bool :=
  match ev with
  | Serial_begin _ | Serial_print _ | Serial_println _ | Serial_newline => true
  | _ => false
  end.

(** A pass with a sample ready or not, and nothing typed. *)
Definition quiet (i : input) : bool :=
  match rx i with
  | [] => true
  | _ => false
  end.

(** The commands whose handlers only print. *)
Definition read_only (k : cmd) : bool :=
  match k with
  | Cmd_banner | Cmd_help | Cmd_kick | Cmd_parameters | Cmd_unknown => true
  | _ => false
  end.

(** The largest magnitude a window sum of [nSample] readings can have. *)
Definition sum_bound : Z := 32768 * nSample.

(** No 32-bit quantity of the state is near wrapping. *)
Definition within_bounds (s : state) : Prop :=
  -32768 * sample s <= ADCValSum s <= 32767 * sample s /\
  - sum_bound <= ADCVal0 s <= sum_bound /\
  - sum_bound <= ADCOffset s <= sum_bound.

Definition adc_in_range (i : input) : bool := in_int_range (adc i).

(** ** The model at work *)

(** [FSR2] is 4096/1000 correctly rounded, with bit pattern 0x4083126F. *)
Example FSR2_is_4_096 :
  F32.div (F32.of_Z 4096) (F32.of_Z 1000) = FSR2 /\
  F32.to_bits FSR2 = 1082331759.
Proof. vm_compute. split; reflexivity. Qed.

(** A factory-fresh EEPROM boots to offset 0 and scale factor 1.0, with
    the three fields at bytes 0-1, 2-5 and 6-9. *)
Example boot_fresh_eeprom :
  ADCOffset (boot ∅) = 0 /\ ADCCal (boot ∅) = F32.one /\
  List.map (EEPROM.read (eeprom (boot ∅))) [0; 1; 2; 3; 4; 5; 6; 7; 8; 9; 10]
  = [57; 48; 0; 0; 128; 63; 0; 0; 0; 0; 255].
Proof. vm_compute. repeat split; reflexivity. Qed.

(** With the defaults, 430 readings of 1000 give 0.12500381 A: mantissa
    8388864 at exponent -26. *)
Example reading_of_1000 :
  Amps (fst (run (List.map sample_in (repeat 1000 430)) (boot ∅)))
  = S754_finite false 8388864 (-26).
Proof. vm_compute. reflexivity. Qed.

(** ** Facts on the machine integers *)

Section AVR_facts.

Import AVR.

Lemma AVR_to_int_id z : int_range z -> to_int z = z.
Proof.
  unfold int_range, to_int, wrap. intros H.
  change (2 ^ (16 - 1)) with 32768. change (2 ^ 16) with 65536.
  rewrite Z.mod_small; lia.
Qed.

Lemma AVR_to_long_id z : long_range z -> to_long z = z.
Proof.
  unfold long_range, to_long, wrap. intros H.
  change (2 ^ (32 - 1)) with 2147483648. change (2 ^ 32) with 4294967296.
  rewrite Z.mod_small; lia.
Qed.

Lemma AVR_to_long_range z : long_range (to_long z).
Proof.
  unfold long_range, to_long, wrap.
  change (2 ^ (32 - 1)) with 2147483648. change (2 ^ 32) with 4294967296.
  pose proof (Z.mod_pos_bound (z + 2147483648) 4294967296). lia.
Qed.

End AVR_facts.

(** ** Reading the EEPROM back *)

Section EEPROM_facts.

Import EEPROM.

Lemma read_update_eq a b e : read (update a b e) a = b.
Proof.
  unfold update. destruct (read e a =? b) eqn:E.
  - apply Z.eqb_eq in E. exact E.
  - unfold read. rewrite lookup_insert_eq. reflexivity.
Qed.

Lemma read_update_ne a a' b e : a <> a' -> read (update a b e) a' = read e a'.
Proof.
  intros Hne. unfold update. destruct (read e a =? b); [reflexivity|].
  unfold read. rewrite lookup_insert_ne by exact Hne. reflexivity.
Qed.

Lemma bytes_word16 v :
  byte_of v 0 + 256 * byte_of v 1 = v mod 65536.
Proof.
  unfold byte_of. change (256 ^ 0) with 1. change (256 ^ 1) with 256.
  rewrite Z.div_1_r.
  pose proof (Z.div_mod v 256 ltac:(lia)).
  pose proof (Z.div_mod (v / 256) 256 ltac:(lia)).
  pose proof (Z.mod_pos_bound v 256 ltac:(lia)).
  pose proof (Z.mod_pos_bound (v / 256) 256 ltac:(lia)).
  apply Z.mod_unique with (q := v / 256 / 256); lia.
Qed.

Lemma bytes_word32 v :
  byte_of v 0 + 256 * byte_of v 1 + 65536 * byte_of v 2
  + 16777216 * byte_of v 3 = v mod 4294967296.
Proof.
  unfold byte_of. change (256 ^ 0) with 1. change (256 ^ 1) with 256.
  change (256 ^ 2) with (256 * 256). change (256 ^ 3) with (256 * 256 * 256).
  rewrite Z.div_1_r, <- !Z.div_div by lia.
  pose proof (Z.div_mod v 256 ltac:(lia)).
  pose proof (Z.div_mod (v / 256) 256 ltac:(lia)).
  pose proof (Z.div_mod (v / 256 / 256) 256 ltac:(lia)).
  pose proof (Z.div_mod (v / 256 / 256 / 256) 256 ltac:(lia)).
  pose proof (Z.mod_pos_bound v 256 ltac:(lia)).
  pose proof (Z.mod_pos_bound (v / 256) 256 ltac:(lia)).
  pose proof (Z.mod_pos_bound (v / 256 / 256) 256 ltac:(lia)).
  pose proof (Z.mod_pos_bound (v / 256 / 256 / 256) 256 ltac:(lia)).
  apply Z.mod_unique with (q := v / 256 / 256 / 256 / 256); lia.
Qed.

Lemma get_put_word32 a v e :
  get_word32 (put_word32 a v e) a = v mod 4294967296.
Proof.
  unfold get_word32, put_word32.
  rewrite read_update_eq.
  rewrite (read_update_ne (a + 3) (a + 2)), read_update_eq by lia.
  rewrite (read_update_ne (a + 3) (a + 1)), (read_update_ne (a + 2) (a + 1)),
    read_update_eq by lia.
  rewrite (read_update_ne (a + 3) a), (read_update_ne (a + 2) a),
    (read_update_ne (a + 1) a), read_update_eq by lia.
  apply bytes_word32.
Qed.

Lemma get_put_word16 a v e :
  get_word16 (put_int a v e) a = v mod 65536.
Proof.
  unfold get_word16, put_int.
  rewrite read_update_eq.
  rewrite (read_update_ne (a + 1) a), read_update_eq by lia.
  apply bytes_word16.
Qed.

Lemma read_put_word32_other a a' v e :
  a' < a \/ a + 4 <= a' -> read (put_word32 a v e) a' = read e a'.
Proof.
  intros H. unfold put_word32. rewrite !read_update_ne by lia. reflexivity.
Qed.

Lemma read_put_int_other a a' v e :
  a' < a \/ a + 2 <= a' -> read (put_int a v e) a' = read e a'.
Proof.
  intros H. unfold put_int. rewrite !read_update_ne by lia. reflexivity.
Qed.

Lemma get_word32_put_word32_other a a' v e :
  a' + 4 <= a \/ a + 4 <= a' ->
  get_word32 (put_word32 a v e) a' = get_word32 e a'.
Proof.
  intros H. unfold get_word32. rewrite !read_put_word32_other by lia.
  reflexivity.
Qed.

Lemma get_word16_put_word32_other a a' v e :
  a' + 2 <= a \/ a + 4 <= a' ->
  get_word16 (put_word32 a v e) a' = get_word16 e a'.
Proof.
  intros H. unfold get_word16. rewrite !read_put_word32_other by lia.
  reflexivity.
Qed.

Lemma to_long_mod v : AVR.to_long (v mod 4294967296) = AVR.to_long v.
Proof.
  unfold AVR.to_long, AVR.wrap.
  change (2 ^ (32 - 1)) with 2147483648. change (2 ^ 32) with 4294967296.
  rewrite Zplus_mod_idemp_l. reflexivity.
Qed.

Lemma get_put_long a v e :
  AVR.long_range v -> get_long (put_long a v e) a = v.
Proof.
  intros H. unfold get_long, put_long.
  rewrite get_put_word32, to_long_mod. apply AVR_to_long_id, H.
Qed.

End EEPROM_facts.

(** ** The layout of the persistent store *)

(** C3, as the specification words it, does not hold: the offset is not the
    field that follows the programmed flag, and the scale factor does not
    come after the offset. *)
Lemma layout_offset_then_scale_fails :
  ~ (ADCOffsetAddr = EEPROMProgrammedFlagAddr + AVR.sizeof_int /\
     ADCOffsetAddr + AVR.sizeof_long <= ADCCalAddr).
Proof.
  unfold ADCOffsetAddr, ADCCalAddr, EEPROMProgrammedFlagAddr,
    AVR.sizeof_int, AVR.sizeof_long, AVR.sizeof_float.
  lia.
Qed.

(** C3, amended: the store is laid out as flag (int, address 0), then the
    scale factor (float, address 2, right after the flag), then the offset
    (long, address 6, right after the scale factor); a field written at its
    address leaves the other two as they were. *)
Theorem eeprom_layout :
  EEPROMProgrammedFlagAddr = 0 /\
  ADCCalAddr = EEPROMProgrammedFlagAddr + AVR.sizeof_int /\
  ADCOffsetAddr = ADCCalAddr + AVR.sizeof_float /\
  ADCCalAddr = 2 /\ ADCOffsetAddr = 6 /\
  (forall e f,
     EEPROM.get_int (EEPROM.put_float ADCCalAddr f e) EEPROMProgrammedFlagAddr
       = EEPROM.get_int e EEPROMProgrammedFlagAddr /\
     EEPROM.get_long (EEPROM.put_float ADCCalAddr f e) ADCOffsetAddr
       = EEPROM.get_long e ADCOffsetAddr) /\
  (forall e v,
     EEPROM.get_int (EEPROM.put_long ADCOffsetAddr v e) EEPROMProgrammedFlagAddr
       = EEPROM.get_int e EEPROMProgrammedFlagAddr /\
     EEPROM.get_float (EEPROM.put_long ADCOffsetAddr v e) ADCCalAddr
       = EEPROM.get_float e ADCCalAddr).
Proof.
  repeat split; try reflexivity.
  - unfold EEPROM.get_int, EEPROM.put_float.
    rewrite get_word16_put_word32_other; [reflexivity|vm_compute; intuition discriminate].
  - unfold EEPROM.get_long, EEPROM.put_float.
    rewrite get_word32_put_word32_other; [reflexivity|vm_compute; intuition discriminate].
  - unfold EEPROM.get_int, EEPROM.put_long.
    rewrite get_word16_put_word32_other; [reflexivity|vm_compute; intuition discriminate].
  - unfold EEPROM.get_float, EEPROM.put_long.
    rewrite get_word32_put_word32_other; [reflexivity|vm_compute; intuition discriminate].
Qed.

(** ** Boot with an uninitialised store *)

(** C7: when the flag read at boot is not [EEPROMFlag], [setup] writes the
    flag, offset 0 and scale factor 1.0 to the store, reads the calibration
    back as exactly those defaults, and runs to its end (the trace is the
    normal boot trace with the two "Loading defaults" messages in it). *)
Theorem setup_loads_defaults (e : gmap Z Z) :
  EEPROM.get_int e EEPROMProgrammedFlagAddr <> EEPROMFlag ->
  let r := setup (reset_state e) in
  eeprom (fst r) =
    EEPROM.put_float ADCCalAddr F32.one
      (EEPROM.put_long ADCOffsetAddr 0
        (EEPROM.put_int EEPROMProgrammedFlagAddr EEPROMFlag e)) /\
  EEPROM.get_int (eeprom (fst r)) EEPROMProgrammedFlagAddr = EEPROMFlag /\
  EEPROM.get_long (eeprom (fst r)) ADCOffsetAddr = 0 /\
  EEPROM.get_float (eeprom (fst r)) ADCCalAddr = F32.one /\
  ADCOffset (fst r) = 0 /\
  ADCCal (fst r) = F32.one /\
  snd r =
    [Serial_begin 115200; Serial_println (PStr vers);
     ads1115 ads_begin; pinMode_OUTPUT LEDPin; digitalWrite LEDPin false;
     Serial_print (PStr "Loading defaults to EEPROM...");
     Serial_println (PStr " Done."); ads1115 (ads_setMode 0);
     ads1115 (ads_setDataRate sampleMode); attachInterrupt_RISING ADCreadyPin;
     ads1115 (ads_setComparatorThresholdLow 0);
     ads1115 (ads_setComparatorThresholdHigh 32768);
     ads1115 (ads_setComparatorQueConvert 0);
     ads1115 (ads_setComparatorLatch 0); ads1115 (ads_setGain GAIN_ONE);
     ads1115 ads_requestADC_Differential_0_1;
     AmpDisplay_begin DISPLAY_ADDRESS; pinMode_OUTPUT negPin;
     Serial_println (PStr "(Press ? for menu)"); Serial_newline;
     Serial_print (PStr "> ")].
Proof.
  intros H. apply Z.eqb_neq in H.
  assert (Hflag : forall e', EEPROM.get_int
            (EEPROM.put_float ADCCalAddr F32.one
               (EEPROM.put_long ADCOffsetAddr 0
                  (EEPROM.put_int EEPROMProgrammedFlagAddr EEPROMFlag e')))
            EEPROMProgrammedFlagAddr = EEPROMFlag).
  { intros e'. unfold EEPROM.get_int, EEPROM.put_float, EEPROM.put_long.
    rewrite !get_word16_put_word32_other by (vm_compute; intuition discriminate).
    rewrite get_put_word16. reflexivity. }
  assert (Hoff : forall e', EEPROM.get_long
            (EEPROM.put_float ADCCalAddr F32.one
               (EEPROM.put_long ADCOffsetAddr 0 e')) ADCOffsetAddr = 0).
  { intros e'. unfold EEPROM.get_long, EEPROM.put_float, EEPROM.put_long.
    rewrite get_word32_put_word32_other by (vm_compute; intuition discriminate).
    rewrite get_put_word32. reflexivity. }
  assert (Hcal : forall e', EEPROM.get_float
            (EEPROM.put_float ADCCalAddr F32.one e') ADCCalAddr = F32.one).
  { intros e'. unfold EEPROM.get_float, EEPROM.put_float.
    rewrite get_put_word32. reflexivity. }
  unfold setup, load_defaults, ifs, seq. cbn. rewrite H. cbn.
  rewrite Hflag, Hoff, Hcal. repeat split; reflexivity.
Qed.

(** A factory-fresh EEPROM (every cell erased) is such a store. *)
Lemma setup_loads_defaults_witness :
  EEPROM.get_int ∅ EEPROMProgrammedFlagAddr <> EEPROMFlag /\
  ADCCal (fst (setup (reset_state ∅))) = F32.one.
Proof.
  assert (H : EEPROM.get_int ∅ EEPROMProgrammedFlagAddr <> EEPROMFlag)
    by (vm_compute; discriminate).
  split; [exact H|].
  exact (proj1 (proj2 (proj2 (proj2 (proj2 (proj2
    (setup_loads_defaults ∅ H))))))).
Defined.

(** ** Sequencing *)

Lemma seq_fst (p q : Proc) s : fst ((p >> q) s) = fst (q (fst (p s))).
Proof. unfold seq. destruct (p s) as [s1 o1]. cbn. destruct (q s1). reflexivity. Qed.

Lemma seq_snd (p q : Proc) s :
  snd ((p >> q) s) = snd (p s) ++ snd (q (fst (p s))).
Proof. unfold seq. destruct (p s) as [s1 o1]. cbn. destruct (q s1). reflexivity. Qed.

Lemma run_app ins1 ins2 s :
  run (ins1 ++ ins2) s =
  (fst (run ins2 (fst (run ins1 s))),
   snd (run ins1 s) ++ snd (run ins2 (fst (run ins1 s)))).
Proof.
  revert s. induction ins1 as [|i ins1 IH]; intros s.
  - cbn. destruct (run ins2 s). reflexivity.
  - cbn [app run]. unfold seq. destruct (pass i s) as [s1 o1].
    rewrite IH. destruct (run ins1 s1) as [s2 o2]. cbn.
    rewrite app_assoc. reflexivity.
Qed.

Lemma run_one i s : run [i] s = pass i s.
Proof.
  cbn [run]. unfold seq, skip. destruct (pass i s) as [s1 o1].
  rewrite app_nil_r. reflexivity.
Qed.

(** ** Extrema of a list *)

Lemma fold_max_spec t : forall x,
  In (fold_left Z.max t x) (x :: t) /\
  (forall y, In y (x :: t) -> y <= fold_left Z.max t x).
Proof.
  induction t as [|a t IH]; intros x; cbn [fold_left].
  - split; [left; reflexivity|]. intros y [->|[]]. lia.
  - destruct (IH (Z.max x a)) as [Hin Hle]. split.
    + destruct Hin as [Hin|Hin]; [|right; right; exact Hin].
      rewrite <- Hin. destruct (Z.max_spec x a) as [[_ ->]|[_ ->]];
        [right; left|left]; reflexivity.
    + intros y [->|[->|Hy]].
      * specialize (Hle (Z.max y a) (or_introl eq_refl)). lia.
      * specialize (Hle (Z.max x y) (or_introl eq_refl)). lia.
      * apply Hle. right. exact Hy.
Qed.

Lemma fold_min_spec t : forall x,
  In (fold_left Z.min t x) (x :: t) /\
  (forall y, In y (x :: t) -> fold_left Z.min t x <= y).
Proof.
  induction t as [|a t IH]; intros x; cbn [fold_left].
  - split; [left; reflexivity|]. intros y [->|[]]. lia.
  - destruct (IH (Z.min x a)) as [Hin Hle]. split.
    + destruct Hin as [Hin|Hin]; [|right; right; exact Hin].
      rewrite <- Hin. destruct (Z.min_spec x a) as [[_ ->]|[_ ->]];
        [left|right; left]; reflexivity.
    + intros y [->|[->|Hy]].
      * specialize (Hle (Z.min y a) (or_introl eq_refl)). lia.
      * specialize (Hle (Z.min x y) (or_introl eq_refl)). lia.
      * apply Hle. right. exact Hy.
Qed.

Lemma maxZ_spec l :
  l <> [] -> In (maxZ l) l /\ (forall y, In y l -> y <= maxZ l).
Proof. destruct l as [|x t]; [congruence|]. intros _. apply fold_max_spec. Qed.

Lemma minZ_spec l :
  l <> [] -> In (minZ l) l /\ (forall y, In y l -> minZ l <= y).
Proof. destruct l as [|x t]; [congruence|]. intros _. apply fold_min_spec. Qed.

(** From the reset values the running extrema are the extrema of the
    samples taken. *)
Lemma fold_max_from_reset l :
  l <> [] -> Forall AVR.int_range l -> fold_left Z.max l (-32768) = maxZ l.
Proof.
  destruct l as [|x t]; [congruence|]. intros _ H.
  apply Forall_cons_1 in H as [Hx _]. unfold AVR.int_range in Hx. cbn.
  rewrite Z.max_r by lia. reflexivity.
Qed.

Lemma fold_min_from_reset l :
  l <> [] -> Forall AVR.int_range l -> fold_left Z.min l 32767 = minZ l.
Proof.
  destruct l as [|x t]; [congruence|]. intros _ H.
  apply Forall_cons_1 in H as [Hx _]. unfold AVR.int_range in Hx. cbn.
  rewrite Z.min_r by lia. reflexivity.
Qed.

Lemma sumZ_app l1 l2 : sumZ (l1 ++ l2) = sumZ l1 + sumZ l2.
Proof. induction l1 as [|x l1 IH]; cbn [app sumZ]; lia. Qed.

Lemma sumZ_bounds l :
  Forall AVR.int_range l ->
  -32768 * Z.of_nat (length l) <= sumZ l <= 32767 * Z.of_nat (length l).
Proof.
  induction 1 as [|x l Hx _ IH]; [cbn; lia|].
  unfold AVR.int_range in Hx. cbn [length sumZ]. lia.
Qed.

(** ** The acquisition half, step by step *)

Lemma accumulate_spec v s :
  let s' := fst (accumulate v s) in
  snd (accumulate v s) = [] /\
  untouched s' = untouched s /\
  gotADCValue s' = false /\
  ADCVal s' = v /\
  ADCHigh s' = Z.max (ADCHigh s) v /\
  ADCLow s' = Z.min (ADCLow s) v /\
  ADCValSum s' = AVR.to_long (ADCValSum s + v) /\
  sample s' = AVR.to_int (sample s + 1).
Proof.
  unfold accumulate, ifs, seq, assign, skip. cbn.
  destruct (Z.gtb_spec v (ADCHigh s)); cbn;
    destruct (Z.ltb_spec v (ADCLow s)); cbn; repeat split; lia.
Qed.

(** A pass that takes a sample: [accumulate], then the test on the count. *)
Lemma pass_sample_in v s :
  pass (sample_in v) s =
  let w := fst (accumulate v (set_gotADCValue true s)) in
  if sample w >=? nSample then window_complete w else (w, []).
Proof.
  unfold pass, sample_in, loop, loop_adc, loop_serial, ADCread. cbn [isr adc rx dialog].
  unfold ifs at 1, seq at 1 2 3, assign at 1, skip at 1 2.
  cbn [gotADCValue set_gotADCValue].
  pose proof (accumulate_spec v (set_gotADCValue true s)) as [Hs _].
  destruct (accumulate v (set_gotADCValue true s)) as [w o]. cbn in Hs. subst o.
  cbn [fst]. unfold ifs. destruct (sample w >=? nSample).
  - destruct (window_complete w) as [s2 o2]. cbn. rewrite app_nil_r. reflexivity.
  - reflexivity.
Qed.

(** Samples taken while the window stays open: nothing is sent out, and the
    running sum, count and extrema follow the samples. *)
Lemma run_open l : forall s,
  Forall AVR.int_range l ->
  0 <= sample s ->
  sample s + Z.of_nat (length l) < nSample ->
  -32768 * sample s <= ADCValSum s <= 32767 * sample s ->
  let r := run (map sample_in l) s in
  snd r = [] /\
  untouched (fst r) = untouched s /\
  sample (fst r) = sample s + Z.of_nat (length l) /\
  ADCValSum (fst r) = ADCValSum s + sumZ l /\
  ADCHigh (fst r) = fold_left Z.max l (ADCHigh s) /\
  ADCLow (fst r) = fold_left Z.min l (ADCLow s).
Proof.
  unfold nSample.
  induction l as [|v l IH]; intros s Hl Hk Hn Hsum.
  - cbn. repeat split; lia.
  - apply Forall_cons_1 in Hl as [Hv Hl]. unfold AVR.int_range in Hv.
    cbn [length] in Hn.
    cbn [map run]. cbv zeta. rewrite seq_fst, seq_snd, pass_sample_in. cbv zeta.
    pose proof (accumulate_spec v (set_gotADCValue true s))
      as (_ & Hu & _ & _ & Hhi & Hlo & Hs & Hc).
    cbv zeta in Hu, Hhi, Hlo, Hs, Hc.
    set (w := fst (accumulate v (set_gotADCValue true s))) in *.
    cbn [ADCHigh ADCLow ADCValSum sample set_gotADCValue] in Hhi, Hlo, Hs, Hc.
    rewrite AVR_to_long_id in Hs by (unfold AVR.long_range; lia).
    rewrite AVR_to_int_id in Hc by (unfold AVR.int_range; lia).
    replace (sample w >=? nSample) with false
      by (symmetry; rewrite Z.geb_leb; apply Z.leb_gt; unfold nSample; lia).
    cbn [fst snd].
    destruct (IH w Hl) as (Ho & Hu' & Hc' & Hs' & Hhi' & Hlo'); try lia.
    cbv zeta in Ho, Hu', Hc', Hs', Hhi', Hlo'.
    rewrite Ho, Hu', Hc', Hs', Hhi', Hlo', Hu, Hc, Hs, Hhi, Hlo.
    cbn [fold_left sumZ app length]. repeat split; lia.
Qed.

Lemma window_complete_spec s :
  let mean := AVR.to_long (ADCValSum s + ADCOffset s) ÷ sample s in
  let amps := F32.mul (VScale s) (F32.of_Z mean) in
  let r := window_complete s in
  ADCVal0 (fst r) = ADCValSum s /\
  Amps (fst r) = amps /\
  pinNeg (fst r) = F32.ltb amps F32.zero /\
  pinLED (fst r) = negb (pinLED s) /\
  fresh_window (fst r) /\
  gotADCValue (fst r) = gotADCValue s /\
  cmdChar (fst r) = cmdChar s /\
  SerialDisplay (fst r) = SerialDisplay s /\
  calibration (fst r) = calibration s /\
  snd r =
    display_trace amps ++ [digitalWrite LEDPin (negb (pinLED s))] ++
    (if SerialDisplay s
     then log_record mean amps
            (F32.mul (VScale s) (F32.add (F32.of_Z (ADCHigh s)) (fADCOffset s)))
            (F32.mul (VScale s) (F32.add (F32.of_Z (ADCLow s)) (fADCOffset s)))
     else []).
Proof.
  unfold window_complete, Print_Data, write_negPin, write_LEDPin, display_trace,
    log_record, fresh_window, highVolts, lowVolts, ifs, seq, assign, emit,
    emitf, skip.
  cbn.
  destruct (F32.ltb _ F32.zero) eqn:Hneg; cbn;
    destruct (SerialDisplay s) eqn:Hlog; cbn; rewrite ?Hneg, ?Hlog;
    repeat split; reflexivity.
Qed.

(** The pass that takes the last sample of a window hands the accumulated
    window [w] to the completion block. *)
Lemma run_window l v s :
  fresh_window s ->
  Z.of_nat (length (l ++ [v])) = nSample ->
  Forall AVR.int_range (l ++ [v]) ->
  let s1 := fst (run (map sample_in l) s) in
  let w := fst (accumulate v (set_gotADCValue true s1)) in
  snd (run (map sample_in l) s) = [] /\
  pass (sample_in v) s1 = window_complete w /\
  run (map sample_in (l ++ [v])) s = window_complete w /\
  ADCValSum w = sumZ (l ++ [v]) /\
  sample w = nSample /\
  ADCHigh w = maxZ (l ++ [v]) /\
  ADCLow w = minZ (l ++ [v]) /\
  untouched w = untouched s.
Proof.
  intros (Hsum & Hcnt & Hhi & Hlo) Hlen Hall. cbv zeta.
  assert (Hne : l ++ [v] <> []) by (destruct l; discriminate).
  rewrite <- (fold_max_from_reset _ Hne Hall), <- (fold_min_from_reset _ Hne Hall).
  pose proof (sumZ_bounds _ Hall) as Hb.
  rewrite !fold_left_app, sumZ_app. rewrite sumZ_app in Hb.
  rewrite length_app, Nat2Z.inj_add in Hlen, Hb. cbn [length sumZ fold_left] in *.
  apply Forall_app in Hall as [Hl Hv]. apply Forall_cons_1 in Hv as [Hv _].
  pose proof (sumZ_bounds _ Hl) as Hbl.
  unfold nSample in *. unfold AVR.int_range in Hv.
  destruct (run_open l s Hl) as (Ho & Hu & Hc & Hs & Hh & Hm);
    try (unfold nSample; lia).
  cbv zeta in Ho, Hu, Hc, Hs, Hh, Hm.
  set (s1 := fst (run (map sample_in l) s)) in *.
  pose proof (accumulate_spec v (set_gotADCValue true s1))
    as (_ & Hu' & _ & _ & Hhi' & Hlo' & Hs' & Hc').
  cbv zeta in Hu', Hhi', Hlo', Hs', Hc'.
  set (w := fst (accumulate v (set_gotADCValue true s1))) in *.
  cbn [ADCHigh ADCLow ADCValSum sample set_gotADCValue] in Hhi', Hlo', Hs', Hc'.
  rewrite AVR_to_long_id in Hs' by (unfold AVR.long_range; lia).
  rewrite AVR_to_int_id in Hc' by (unfold AVR.int_range; lia).
  assert (Hpass : pass (sample_in v) s1 = window_complete w).
  { rewrite pass_sample_in. cbv zeta. fold w.
    replace (sample w >=? nSample) with true; [reflexivity|].
    symmetry. rewrite Z.geb_leb. apply Z.leb_le. unfold nSample. lia. }
  repeat split.
  - exact Ho.
  - exact Hpass.
  - rewrite map_app, run_app. fold s1. rewrite Ho. cbn [map app].
    rewrite run_one, Hpass. destruct (window_complete w); reflexivity.
  - lia.
  - lia.
  - rewrite Hhi', Hh, Hhi. reflexivity.
  - rewrite Hlo', Hm, Hlo. reflexivity.
  - rewrite Hu', <- Hu. reflexivity.
Qed.

Lemma int_range_check l :
  forallb in_int_range l = true -> Forall AVR.int_range l.
Proof.
  intros H. apply List.Forall_forall. intros x Hx.
  rewrite forallb_forall in H. specialize (H x Hx).
  unfold in_int_range in H. apply andb_true_iff in H as [H1 H2].
  apply Z.leb_le in H1, H2. unfold AVR.int_range. lia.
Qed.

(** A window of [nSample] samples taken from a fresh window state: what is
    computed, driven and sent when it completes. *)
Lemma run_full_window l s :
  fresh_window s ->
  Z.of_nat (length l) = nSample ->
  Forall AVR.int_range l ->
  let r := run (map sample_in l) s in
  let mean := AVR.to_long (sumZ l + ADCOffset s) ÷ nSample in
  let amps := F32.mul (VScale s) (F32.of_Z mean) in
  let high := F32.mul (VScale s) (F32.add (F32.of_Z (maxZ l)) (fADCOffset s)) in
  let low := F32.mul (VScale s) (F32.add (F32.of_Z (minZ l)) (fADCOffset s)) in
  ADCVal0 (fst r) = sumZ l /\
  Amps (fst r) = amps /\
  pinNeg (fst r) = F32.ltb amps F32.zero /\
  fresh_window (fst r) /\
  SerialDisplay (fst r) = SerialDisplay s /\
  calibration (fst r) = calibration s /\
  snd r =
    display_trace amps ++ [digitalWrite LEDPin (negb (pinLED s))] ++
    (if SerialDisplay s then log_record mean amps high low else []).
Proof.
  intros Hf Hlen Hall.
  assert (Hne : l <> []) by (destruct l; [discriminate|congruence]).
  destruct (exists_last Hne) as (l' & v & ->).
  destruct (run_window l' v s Hf Hlen Hall)
    as (_ & _ & Hrun & Hsum & Hcnt & Hhi & Hlo & Hu).
  cbv zeta in Hrun, Hsum, Hcnt, Hhi, Hlo, Hu.
  set (w := fst (accumulate v (set_gotADCValue true
                  (fst (run (map sample_in l') s))))) in *.
  cbv zeta. rewrite Hrun.
  pose proof (window_complete_spec w)
    as (H0 & HA & HN & _ & HF & _ & _ & HS & HC & HT).
  cbv zeta in H0, HA, HN, HF, HS, HC, HT.
  unfold untouched in Hu.
  injection Hu as _ _ _ EV EC EO EF ES EE EL _.
  unfold calibration in *.
  rewrite H0, HA, HN, HS, HC, HT, Hsum, Hcnt, Hhi, Hlo, EV, EC, EO, EF, ES, EE, EL.
  split; [reflexivity|]. split; [reflexivity|]. split; [reflexivity|].
  split; [exact HF|]. repeat split; reflexivity.
Qed.

(** ** The aggregator *)

(** C2: feed any [nSample] samples [l ++ [v]], one per ready flag, to a
    fresh window.  The passes of the first [nSample - 1] send nothing out;
    the pass of the last one runs the completion block on a window [w]
    whose sum is the arithmetic sum of the samples, whose count is
    [nSample], and whose maximum and minimum are elements of the sequence
    that bound every element.  The statement is over every list, so the
    order of the samples does not matter. *)
Theorem window_aggregates (l : list Z) (v : Z) (s : state) :
  fresh_window s ->
  Z.of_nat (length (l ++ [v])) = nSample ->
  Forall AVR.int_range (l ++ [v]) ->
  let s1 := fst (run (map sample_in l) s) in
  let w := fst (accumulate v (fst (ADCread s1))) in
  snd (run (map sample_in l) s) = [] /\
  pass (sample_in v) s1 = window_complete w /\
  ADCValSum w = sumZ (l ++ [v]) /\
  sample w = nSample /\
  ADCHigh w = maxZ (l ++ [v]) /\
  ADCLow w = minZ (l ++ [v]) /\
  In (ADCHigh w) (l ++ [v]) /\
  In (ADCLow w) (l ++ [v]) /\
  (forall x, In x (l ++ [v]) -> ADCLow w <= x <= ADCHigh w) /\
  ADCVal0 (fst (window_complete w)) = sumZ (l ++ [v]).
Proof.
  intros Hf Hlen Hall.
  destruct (run_window l v s Hf Hlen Hall)
    as (Ho & Hpass & _ & Hsum & Hcnt & Hhi & Hlo & _).
  cbv zeta in Hpass, Hsum, Hcnt, Hhi, Hlo. cbv zeta.
  change (fst (ADCread (fst (run (map sample_in l) s))))
    with (set_gotADCValue true (fst (run (map sample_in l) s))).
  set (w := fst (accumulate v _)) in *.
  assert (Hne : l ++ [v] <> []) by (destruct l; discriminate).
  destruct (maxZ_spec _ Hne) as [Hmi Hmb].
  destruct (minZ_spec _ Hne) as [Hni Hnb].
  pose proof (window_complete_spec w) as (H0 & _). cbv zeta in H0.
  rewrite H0, Hhi, Hlo, Hsum.
  repeat split; auto.
Qed.

Lemma long_range_check z : in_long_range z = true -> AVR.long_range z.
Proof.
  unfold in_long_range. intros H. apply andb_true_iff in H as [H1 H2].
  apply Z.leb_le in H1, H2. unfold AVR.long_range. lia.
Qed.

Lemma window_aggregates_witness :
  let w := fst (accumulate 7
                  (fst (ADCread (fst (run (map sample_in ramp) (boot ∅)))))) in
  ADCValSum w = sumZ (ramp ++ [7]) /\ sample w = nSample /\
  ADCHigh w = maxZ (ramp ++ [7]) /\ ADCLow w = minZ (ramp ++ [7]).
Proof.
  assert (H1 : fresh_window (boot ∅))
    by (vm_compute; repeat split; reflexivity).
  assert (H2 : Z.of_nat (length (ramp ++ [7])) = nSample)
    by (vm_compute; reflexivity).
  assert (H3 : Forall AVR.int_range (ramp ++ [7]))
    by (apply int_range_check; vm_compute; reflexivity).
  destruct (window_aggregates ramp 7 (boot ∅) H1 H2 H3)
    as (_ & _ & Hsum & Hcnt & Hhi & Hlo & _).
  exact (conj Hsum (conj Hcnt (conj Hhi Hlo))).
Defined.

(** ** The calibrated reading *)

(** C1: when a window of [nSample] samples [l] completes (and the corrected
    sum fits a [long]), [Amps] is [VScale] times the float of the integer
    quotient of [sum + ADCOffset] by the count; the sign LED is driven high
    exactly when [Amps < 0], the display being sent [-Amps] then and [Amps]
    otherwise; and the high and low columns of the log line, when logging
    is on, are [VScale * (max + fADCOffset)] and [VScale * (min + fADCOffset)]. *)
Theorem window_reading (l : list Z) (s : state) :
  fresh_window s ->
  Z.of_nat (length l) = nSample ->
  Forall AVR.int_range l ->
  AVR.long_range (sumZ l + ADCOffset s) ->
  let r := run (map sample_in l) s in
  let mean := (sumZ l + ADCOffset s) ÷ Z.of_nat (length l) in
  let amps := F32.mul (VScale s) (F32.of_Z mean) in
  let high := F32.mul (VScale s) (F32.add (F32.of_Z (maxZ l)) (fADCOffset s)) in
  let low := F32.mul (VScale s) (F32.add (F32.of_Z (minZ l)) (fADCOffset s)) in
  Amps (fst r) = amps /\
  pinNeg (fst r) = F32.ltb amps F32.zero /\
  snd r =
    [AmpDisplay_print (if F32.ltb amps F32.zero then F32.opp amps else amps) 3;
     digitalWrite negPin (F32.ltb amps F32.zero);
     AmpDisplay_writeDisplay;
     digitalWrite LEDPin (negb (pinLED s))] ++
    (if SerialDisplay s then log_record mean amps high low else []).
Proof.
  intros Hf Hlen Hall Hrange.
  destruct (run_full_window l s Hf Hlen Hall) as (_ & HA & HN & _ & _ & _ & HT).
  cbv zeta in HA, HN, HT. cbv zeta.
  rewrite AVR_to_long_id in HA, HN, HT by exact Hrange.
  rewrite Hlen, HA, HN, HT. repeat split; reflexivity.
Qed.

Lemma window_reading_witness :
  Amps (fst (run (map sample_in (ramp ++ [7])) logging_state)) =
  F32.mul (VScale logging_state)
    (F32.of_Z ((sumZ (ramp ++ [7]) + ADCOffset logging_state)
               ÷ Z.of_nat (length (ramp ++ [7])))).
Proof.
  assert (H1 : fresh_window logging_state)
    by (vm_compute; repeat split; reflexivity).
  assert (H2 : Z.of_nat (length (ramp ++ [7])) = nSample)
    by (vm_compute; reflexivity).
  assert (H3 : Forall AVR.int_range (ramp ++ [7]))
    by (apply int_range_check; vm_compute; reflexivity).
  assert (H4 : AVR.long_range (sumZ (ramp ++ [7]) + ADCOffset logging_state))
    by (apply long_range_check; vm_compute; reflexivity).
  exact (proj1 (window_reading (ramp ++ [7]) logging_state H1 H2 H3 H4)).
Defined.

(** ** The log line *)

Lemma in_int_range_check z : in_int_range z = true -> AVR.int_range z.
Proof.
  unfold in_int_range. intros H. apply andb_true_iff in H as [H1 H2].
  apply Z.leb_le in H1, H2. unfold AVR.int_range. lia.
Qed.

(** C4, as the specification words it, does not hold: with a captured
    offset of 43000 and a window of 430 readings of 0, the raw mean is 0
    but the first column of the log line is 100. *)
Lemma log_mean_is_not_raw_mean :
  ADCOffset offset_state = 43000 /\
  SerialDisplay offset_state = true /\
  sumZ (repeat 0 430) ÷ nSample = 0 /\
  log_means (snd (run (map sample_in (repeat 0 430)) offset_state)) = [100] /\
  log_means (snd (run (map sample_in (repeat 0 430)) offset_state))
    <> [sumZ (repeat 0 430) ÷ nSample] /\
  printed_means (snd (run (map sample_in (repeat 0 430)) offset_state))
    = [100] /\
  printed_means (snd (run (map sample_in (repeat 0 430)) offset_state))
    <> [sumZ (repeat 0 430) ÷ nSample].
Proof. vm_compute. repeat split; try reflexivity; discriminate. Qed.

(** The line logged for a completed window, whatever its mean: the [long]
    handed to ["%6d"] is the offset-corrected mean, and the number printed
    is its low-order word. *)
Lemma log_line_low_word l s :
  fresh_window s ->
  Z.of_nat (length l) = nSample ->
  Forall AVR.int_range l ->
  AVR.long_range (sumZ l + ADCOffset s) ->
  SerialDisplay s = true ->
  let r := run (map sample_in l) s in
  let mean := (sumZ l + ADCOffset s) ÷ Z.of_nat (length l) in
  log_means (snd r) = [mean] /\
  printed_means (snd r) = [AVR.to_int mean].
Proof.
  intros Hf Hlen Hall Hrange Hlog.
  destruct (run_full_window l s Hf Hlen Hall) as (_ & _ & _ & _ & _ & _ & HT).
  cbv zeta in HT. cbv zeta.
  rewrite AVR_to_long_id in HT by exact Hrange.
  rewrite Hlog in HT. unfold printed_means. rewrite Hlen, HT.
  split; reflexivity.
Qed.

(** Outside the 16-bit range the number printed is not the mean: after a
    capture at the lowest code, a window at the highest code has the
    corrected mean 65535, printed as -1. *)
Example log_mean_beyond_int :
  let s :=
    fst (run (map sample_in (repeat (-32768) 430) ++ [key_in 79; key_in 115])
           (boot ∅)) in
  let o := snd (run (map sample_in (repeat 32767 430)) s) in
  ADCOffset s = 14090240 /\
  log_means o = [65535] /\
  printed_means o = [-1].
Proof. vm_compute. repeat split; reflexivity. Qed.

(** C4, amended: when the offset-corrected mean code
    [(sum + ADCOffset) / count] of a completed window fits a 16-bit [int],
    the line logged for that window has, in this order, that mean (the very
    integer that is scaled into [Amps]) printed through ["%6d"], then
    [Amps], the high and the low reading through ["%8.4f"], then high minus
    low. *)
Theorem log_line_fields (l : list Z) (s : state) :
  fresh_window s ->
  Z.of_nat (length l) = nSample ->
  Forall AVR.int_range l ->
  AVR.long_range (sumZ l + ADCOffset s) ->
  SerialDisplay s = true ->
  AVR.int_range ((sumZ l + ADCOffset s) ÷ Z.of_nat (length l)) ->
  let r := run (map sample_in l) s in
  let mean := (sumZ l + ADCOffset s) ÷ Z.of_nat (length l) in
  let high := F32.mul (VScale s) (F32.add (F32.of_Z (maxZ l)) (fADCOffset s)) in
  let low := F32.mul (VScale s) (F32.add (F32.of_Z (minZ l)) (fADCOffset s)) in
  Amps (fst r) = F32.mul (VScale s) (F32.of_Z mean) /\
  log_means (snd r) = [mean] /\
  printed_means (snd r) = [mean] /\
  exists shown,
    snd r = shown ++
      [Serial_print (PFmt "%6d , " [ArgLong mean]);
       Serial_print
         (PFmt "%8.4f , %8.4f , " [ArgFloat (Amps (fst r)); ArgFloat high]);
       Serial_println
         (PFmt "%8.4f , %8.4f" [ArgFloat low; ArgFloat (F32.sub high low)])] /\
    log_means shown = [].
Proof.
  intros Hf Hlen Hall Hrange Hlog Hint.
  destruct (run_full_window l s Hf Hlen Hall) as (_ & HA & _ & _ & _ & _ & HT).
  cbv zeta in HA, HT. cbv zeta.
  rewrite AVR_to_long_id in HA, HT by exact Hrange.
  rewrite Hlog in HT. unfold printed_means. rewrite Hlen in Hint.
  rewrite Hlen, HA, HT.
  split; [reflexivity|]. split; [reflexivity|]. split.
  - cbn [app display_trace log_record log_means List.map]. unfold printf_d.
    rewrite (AVR_to_int_id _ Hint). reflexivity.
  - eexists. split; [rewrite app_assoc; reflexivity|reflexivity].
Qed.

Lemma log_line_fields_witness :
  printed_means (snd (run (map sample_in (repeat 0 430)) offset_state)) =
  [(sumZ (repeat 0 430) + ADCOffset offset_state)
   ÷ Z.of_nat (length (repeat 0 430))].
Proof.
  assert (H1 : fresh_window offset_state)
    by (vm_compute; repeat split; reflexivity).
  assert (H2 : Z.of_nat (length (repeat 0 430)) = nSample)
    by (vm_compute; reflexivity).
  assert (H3 : Forall AVR.int_range (repeat 0 430))
    by (apply int_range_check; vm_compute; reflexivity).
  assert (H4 : AVR.long_range (sumZ (repeat 0 430) + ADCOffset offset_state))
    by (apply long_range_check; vm_compute; reflexivity).
  assert (H5 : SerialDisplay offset_state = true)
    by (vm_compute; reflexivity).
  assert (H6 : AVR.int_range
                 ((sumZ (repeat 0 430) + ADCOffset offset_state)
                  ÷ Z.of_nat (length (repeat 0 430))))
    by (apply in_int_range_check; vm_compute; reflexivity).
  exact (proj1 (proj2 (proj2
    (log_line_fields (repeat 0 430) offset_state H1 H2 H3 H4 H5 H6)))).
Defined.

(** ** The command half, step by step *)

Ltac crunch_proc :=
  cbn;
  repeat (match goal with
          | |- context [if ?b then _ else _] => destruct b eqn:?; cbn
          end).

(** No command touches the window. *)
Lemma dispatch_window k rd s : window (fst (dispatch k rd s)) = window s.
Proof.
  destruct rd as [ier aflt].
  destruct k; unfold dispatch, banner, help, echo, prompt, Set_Scale,
    Display_parameters, Display_Header, put_ADCOffset, put_ADCCal,
    update_VScale, update_fADCOffset, println, print, ifs, seq, assign,
    emit, emitf, skip, window;
    crunch_proc; reflexivity.
Qed.

Lemma loop_serial_window rx rd s :
  window (fst (loop_serial rx rd s)) = window s.
Proof.
  destruct rx as [|c rx]; [reflexivity|].
  unfold loop_serial. rewrite seq_fst. unfold command.
  rewrite dispatch_window. reflexivity.
Qed.


Lemma loop_serial_cons c rx rd s :
  loop_serial (c :: rx) rd s = command rd (set_cmdChar (AVR.to_char c) s).
Proof.
  unfold loop_serial, seq, assign.
  destruct (command rd (set_cmdChar (AVR.to_char c) s)). reflexivity.
Qed.

Lemma decode_toggle c : decode c = Cmd_toggle_log -> c = 83 \/ c = 115.
Proof.
  unfold decode. intros H.
  destruct c as [|p|p]; try discriminate H.
  do 8 (try (destruct p as [p|p|]; try discriminate H; auto)).
Qed.

Lemma decode_capture c : c = 79 \/ c = 111 -> decode c = Cmd_capture_offset.
Proof. intros [->| ->]; reflexivity. Qed.

Lemma ends_prompt s : ends_with_prompt (snd (prompt s)).
Proof. exists []. reflexivity. Qed.

Lemma ends_seq (p q : Proc) s :
  (forall s', ends_with_prompt (snd (q s'))) ->
  ends_with_prompt (snd ((p >> q) s)).
Proof.
  intros H. rewrite seq_snd. destruct (H (fst (p s))) as [o' ->].
  exists (snd (p s) ++ o'). rewrite app_assoc. reflexivity.
Qed.

Lemma dispatch_ends_with_prompt k rd s :
  k <> Cmd_toggle_log -> ends_with_prompt (snd (dispatch k rd s)).
Proof.
  intros Hk. destruct k; try congruence; unfold dispatch;
    repeat first [apply ends_prompt | apply ends_seq; intro].
Qed.

(** The capture of the offset, from any state. *)
Lemma capture_offset_step c rd s :
  c = 79 \/ c = 111 ->
  let r := command rd (set_cmdChar c s) in
  ADCOffset (fst r) = AVR.to_long (- ADCVal0 s) /\
  eeprom (fst r) =
    EEPROM.put_long ADCOffsetAddr (AVR.to_long (- ADCVal0 s)) (eeprom s) /\
  fADCOffset (fst r) =
    F32.div (F32.of_Z (AVR.to_long (- ADCVal0 s))) (F32.of_Z nSample) /\
  snd r =
    [Serial_print (PChar c); Serial_newline;
     Serial_println (PStr "Offset captured and saved.");
     Serial_newline; Serial_print (PStr "> ")].
Proof.
  intros Hc. unfold command. cbn [cmdChar set_cmdChar].
  rewrite (decode_capture c Hc).
  unfold dispatch, echo, prompt, put_ADCOffset, update_fADCOffset, println,
    print, seq, assign, emit, emitf.
  cbn. repeat split; reflexivity.
Qed.

(** The rejecting branch of [Set_Scale]. *)
Lemma Set_Scale_rejects ier aflt s :
  ier <= 0 ->
  Set_Scale (ier, aflt) s =
  (s, [Serial_print (PStr "Enter scale factor"); Default (ADCCal s);
       getFloat_call 10000; Serial_newline;
       Serial_print (PStr "Scale factor not updated = ");
       Serial_println (PFloat (ADCCal s) 4)]).
Proof.
  intros H. unfold Set_Scale.
  replace (ier >? 0) with false by (symmetry; rewrite Z.gtb_ltb; apply Z.ltb_ge; lia).
  unfold print, seq, emit, emitf. cbn. reflexivity.
Qed.

(** A value above the bound, like a token that does not parse, makes the
    modelled [getFloat] report a non-positive status. *)
Lemma getFloat_rejects token aflt :
  token = None \/
  (exists x, token = Some x /\ F32.ltb (F32.of_Z 10000) x = true) ->
  getFloat token 10000 aflt = (0, aflt).
Proof.
  intros [-> | (x & -> & Hx)]; [reflexivity|].
  unfold getFloat.
  assert (Habs : F32.ltb (F32.of_Z 10000) (SFabs x) = true).
  { destruct x as [sx|sx| |sx m e]; try discriminate Hx;
      destruct sx; try discriminate Hx; exact Hx. }
  rewrite Habs, andb_false_r. reflexivity.
Qed.

(** ** The state between passes *)

Lemma boot_fresh e :
  fresh_window (boot e) /\ gotADCValue (boot e) = false /\ ADCVal0 (boot e) = 0.
Proof.
  unfold boot, setup, load_defaults, write_LEDPin, put_ADCOffset, put_ADCCal,
    update_VScale, update_fADCOffset, prompt, println, print, fresh_window,
    ifs, seq, assign, emit, emitf, skip.
  cbn. destruct (negb _); cbn; repeat split; reflexivity.
Qed.

Lemma pass_window i s :
  window (fst (pass i s)) =
  window (fst (loop_adc (adc i) (fst ((if isr i then ADCread else skip) s)))).
Proof.
  unfold pass, loop. rewrite !seq_fst. apply loop_serial_window.
Qed.

Lemma loop_adc_taken v s :
  gotADCValue s = true ->
  loop_adc v s =
  let w := fst (accumulate v s) in
  if sample w >=? nSample then window_complete w else (w, []).
Proof.
  intros H. unfold loop_adc, ifs at 1. rewrite H. unfold seq.
  pose proof (accumulate_spec v s) as [Hs _].
  destruct (accumulate v s) as [w o]. cbn in Hs. subst o.
  cbn [fst]. unfold ifs, skip. destruct (sample w >=? nSample).
  - destruct (window_complete w). reflexivity.
  - reflexivity.
Qed.

Lemma loop_adc_idle v s : gotADCValue s = false -> loop_adc v s = (s, []).
Proof. intros H. unfold loop_adc, ifs. rewrite H. reflexivity. Qed.

(** One pass, whatever its input, from a state with the flag down and the
    count below [nSample]. *)
Lemma pass_general i s :
  gotADCValue s = false ->
  0 <= sample s < nSample ->
  let s' := fst (pass i s) in
  gotADCValue s' = false /\
  (if isr i && (sample s =? nSample - 1)
   then fresh_window s' /\ ADCVal0 s' = AVR.to_long (ADCValSum s + adc i)
   else sample s' = sample s + (if isr i then 1 else 0) /\
        ADCVal0 s' = ADCVal0 s).
Proof.
  intros Hflag Hk. cbv zeta.
  pose proof (pass_window i s) as Hw. unfold window in Hw.
  injection Hw as G1 G2 G3 G4 G5 G6.
  unfold fresh_window. rewrite G1, G2, G3, G4, G5, G6. clear G1 G2 G3 G4 G5 G6.
  destruct (isr i); cbn [andb].
  - unfold ADCread, assign. cbn [fst].
    rewrite loop_adc_taken by reflexivity. cbv zeta.
    pose proof (accumulate_spec (adc i) (set_gotADCValue true s))
      as (_ & Hu & Hg & _ & _ & _ & Hs & Hc).
    cbv zeta in Hu, Hg, Hs, Hc.
    set (w := fst (accumulate (adc i) (set_gotADCValue true s))) in *.
    cbn [ADCValSum sample set_gotADCValue] in Hs, Hc.
    unfold nSample in *.
    rewrite AVR_to_int_id in Hc by (unfold AVR.int_range; lia).
    unfold untouched in Hu. injection Hu as _ E0 _ _ _ _ _ _ _ _ _.
    cbn [ADCVal0 set_gotADCValue] in E0.
    destruct (Z.eqb_spec (sample s) (430 - 1)) as [He|He].
    + replace (sample w >=? 430) with true
        by (symmetry; rewrite Z.geb_leb; apply Z.leb_le; lia).
      pose proof (window_complete_spec w) as (H0 & _ & _ & _ & HF & HG & _).
      cbv zeta in H0, HF, HG. unfold fresh_window in HF.
      rewrite HG, H0, Hg, Hs. repeat split; try reflexivity; apply HF.
    + replace (sample w >=? 430) with false
        by (symmetry; rewrite Z.geb_leb; apply Z.leb_gt; lia).
      cbn [fst]. rewrite Hg, Hc, E0. repeat split; reflexivity.
  - unfold skip. cbn [fst]. rewrite loop_adc_idle by exact Hflag.
    cbn [fst]. rewrite Hflag. repeat split; lia.
Qed.

(** Between passes the flag is down and the count is below [nSample]. *)
Lemma run_invariant ins : forall s,
  gotADCValue s = false ->
  0 <= sample s < nSample ->
  gotADCValue (fst (run ins s)) = false /\
  0 <= sample (fst (run ins s)) < nSample.
Proof.
  induction ins as [|i ins IH]; intros s Hflag Hk; [cbn; auto|].
  cbn [run]. rewrite seq_fst.
  destruct (pass_general i s Hflag Hk) as [Hflag' Hrest]. cbv zeta in Hflag', Hrest.
  apply IH; [exact Hflag'|].
  destruct (isr i); cbn [andb] in Hrest.
  - destruct (Z.eqb_spec (sample s) (nSample - 1)).
    + destruct Hrest as [(_ & -> & _) _]. unfold nSample. lia.
    + destruct Hrest as [-> _]. lia.
  - destruct Hrest as [-> _]. lia.
Qed.

(** Until [nSample] samples have been taken no window completes, and
    [ADCVal0] keeps its value. *)
Lemma run_before_completion ins : forall s,
  gotADCValue s = false ->
  0 <= sample s ->
  sample s + samples_taken ins < nSample ->
  ADCVal0 (fst (run ins s)) = ADCVal0 s.
Proof.
  unfold samples_taken.
  induction ins as [|i ins IH]; intros s Hflag Hk Hn; [reflexivity|].
  cbn [run]. rewrite seq_fst.
  assert (Hlt : 0 <= sample s < nSample) by lia.
  destruct (pass_general i s Hflag Hlt) as [Hflag' Hrest]. cbv zeta in Hflag', Hrest.
  cbn [List.filter] in Hn.
  destruct (isr i); cbn [andb] in Hrest.
  - cbn [length] in Hn.
    destruct (Z.eqb_spec (sample s) (nSample - 1)); [lia|].
    destruct Hrest as [Hc H0]. rewrite IH, H0; [reflexivity|exact Hflag'|lia|lia].
  - destruct Hrest as [Hc H0]. rewrite IH, H0; [reflexivity|exact Hflag'|lia|lia].
Qed.

(** ** Rejection in the scale-factor dialog *)

(** C5: when what was typed does not parse, or parses to a value above the
    bound 10000, [Set_Scale] changes nothing ([ADCCal], [VScale] and the
    EEPROM are as before; in fact the whole state is) and reports
    "Scale factor not updated". *)
Theorem Set_Scale_rejection (token : option F32.float) (aflt : F32.float)
    (s : state) :
  token = None \/
  (exists x, token = Some x /\ F32.ltb (F32.of_Z 10000) x = true) ->
  let r := Set_Scale (getFloat token 10000 aflt) s in
  fst r = s /\
  ADCCal (fst r) = ADCCal s /\
  VScale (fst r) = VScale s /\
  eeprom (fst r) = eeprom s /\
  snd r =
    [Serial_print (PStr "Enter scale factor"); Default (ADCCal s);
     getFloat_call 10000; Serial_newline;
     Serial_print (PStr "Scale factor not updated = ");
     Serial_println (PFloat (ADCCal s) 4)].
Proof.
  intros H. cbv zeta.
  rewrite (getFloat_rejects token aflt H), Set_Scale_rejects by lia.
  repeat split; reflexivity.
Qed.

Lemma Set_Scale_rejection_witness :
  fst (Set_Scale (getFloat (Some (F32.of_Z 20000)) 10000 F32.zero) (boot ∅))
  = boot ∅.
Proof.
  assert (H : Some (F32.of_Z 20000) = None \/
              (exists x, Some (F32.of_Z 20000) = Some x /\
                         F32.ltb (F32.of_Z 10000) x = true)).
  { right. exists (F32.of_Z 20000). split; [reflexivity|vm_compute; reflexivity]. }
  exact (proj1 (Set_Scale_rejection (Some (F32.of_Z 20000)) F32.zero (boot ∅) H)).
Defined.

(** ** Capturing the offset *)

(** C6: after a completed window of samples [l] (and any samples [l2] of
    the window that is open since), the command 'O' or 'o' (followed by
    anything on the same line) sets [ADCOffset] to minus the raw sum of
    [l], whatever offset was in force while [l] was taken; the EEPROM read
    back at [ADCOffsetAddr] gives that value; and [fADCOffset] is
    recomputed as [float(ADCOffset) / float(nSample)]. *)
Theorem capture_offset (l l2 : list Z) (s : state) (c : Z) (more : list Z)
    (rd : Z * F32.float) :
  fresh_window s ->
  Z.of_nat (length l) = nSample ->
  Forall AVR.int_range l ->
  Forall AVR.int_range l2 ->
  Z.of_nat (length l2) < nSample ->
  c = 79 \/ c = 111 ->
  let s1 := fst (run (map sample_in (l ++ l2)) s) in
  let r := loop_serial (c :: more) rd s1 in
  ADCVal0 s1 = sumZ l /\
  ADCOffset (fst r) = - sumZ l /\
  EEPROM.get_long (eeprom (fst r)) ADCOffsetAddr = - sumZ l /\
  eeprom (fst r) = EEPROM.put_long ADCOffsetAddr (- sumZ l) (eeprom s) /\
  fADCOffset (fst r) = F32.div (F32.of_Z (- sumZ l)) (F32.of_Z nSample).
Proof.
  intros Hf Hlen Hl Hl2 Hlen2 Hc. cbv zeta.
  rewrite map_app, run_app. cbn [fst].
  destruct (run_full_window l s Hf Hlen Hl) as (H0 & _ & _ & HF & _ & HC & _).
  cbv zeta in H0, HF, HC.
  set (sw := fst (run (map sample_in l) s)) in *.
  destruct HF as (Hsum & Hcnt & _).
  destruct (run_open l2 sw Hl2) as (_ & Hu & _); try lia.
  cbv zeta in Hu.
  set (s1 := fst (run (map sample_in l2) sw)) in *.
  unfold untouched in Hu. injection Hu as _ E0 _ _ _ _ _ _ EE _ _.
  unfold calibration in HC. injection HC as _ _ _ _ EE'.
  assert (Hr : AVR.long_range (- sumZ l)).
  { pose proof (sumZ_bounds l Hl). unfold AVR.long_range, nSample in *. lia. }
  assert (Hchar : AVR.to_char c = c) by (destruct Hc as [-> | ->]; reflexivity).
  rewrite loop_serial_cons, Hchar.
  destruct (capture_offset_step c rd s1 Hc) as (HO & HE & HFo & _).
  cbv zeta in HO, HE, HFo.
  rewrite HO, HE, HFo, E0, H0, EE, EE', (AVR_to_long_id _ Hr).
  repeat split; try reflexivity. apply get_put_long, Hr.
Qed.

Lemma capture_offset_witness :
  ADCOffset
    (fst (loop_serial [79] (0, F32.zero)
       (fst (run (map sample_in ((ramp ++ [7]) ++ [1; 2; 3])) (boot ∅)))))
  = - sumZ (ramp ++ [7]).
Proof.
  assert (H1 : fresh_window (boot ∅))
    by (vm_compute; repeat split; reflexivity).
  assert (H2 : Z.of_nat (length (ramp ++ [7])) = nSample)
    by (vm_compute; reflexivity).
  assert (H3 : Forall AVR.int_range (ramp ++ [7]))
    by (apply int_range_check; vm_compute; reflexivity).
  assert (H4 : Forall AVR.int_range [1; 2; 3])
    by (apply int_range_check; vm_compute; reflexivity).
  assert (H5 : Z.of_nat (length [1; 2; 3]) < nSample)
    by (vm_compute; reflexivity).
  exact (proj1 (proj2
    (capture_offset (ramp ++ [7]) [1; 2; 3] (boot ∅) 79 [] (0, F32.zero)
       H1 H2 H3 H4 H5 (or_introl eq_refl)))).
Defined.

(** C10: from boot, as long as fewer than [nSample] samples have been taken
    (so no window has completed, whatever else was typed meanwhile),
    [ADCVal0] is still 0, and 'O' or 'o' sets the offset to 0, stores 0,
    and prints the same acknowledgement as ever. *)
Theorem capture_before_first_window (e : gmap Z Z) (ins : list input) (c : Z)
    (more : list Z) (rd : Z * F32.float) :
  samples_taken ins < nSample ->
  c = 79 \/ c = 111 ->
  let s := fst (run ins (boot e)) in
  let r := loop_serial (c :: more) rd s in
  ADCVal0 s = 0 /\
  ADCOffset (fst r) = 0 /\
  EEPROM.get_long (eeprom (fst r)) ADCOffsetAddr = 0 /\
  snd r =
    [Serial_print (PChar c); Serial_newline;
     Serial_println (PStr "Offset captured and saved.");
     Serial_newline; Serial_print (PStr "> ")].
Proof.
  intros Hn Hc. cbv zeta.
  destruct (boot_fresh e) as ((_ & Hk & _) & Hflag & H0).
  assert (Hz : ADCVal0 (fst (run ins (boot e))) = 0).
  { rewrite run_before_completion; [exact H0|exact Hflag|lia|lia]. }
  set (s := fst (run ins (boot e))) in *.
  assert (Hchar : AVR.to_char c = c) by (destruct Hc as [-> | ->]; reflexivity).
  rewrite loop_serial_cons, Hchar.
  destruct (capture_offset_step c rd s Hc) as (HO & HE & _ & HT).
  cbv zeta in HO, HE, HT. rewrite HO, HE, HT, Hz.
  repeat split; try reflexivity.
  apply get_put_long. unfold AVR.long_range. cbn. lia.
Qed.

Lemma capture_before_first_window_witness :
  ADCOffset
    (fst (loop_serial [111] (0, F32.zero)
       (fst (run (map sample_in ramp ++ [key_in 112]) (boot ∅))))) = 0.
Proof.
  assert (H1 : samples_taken (map sample_in ramp ++ [key_in 112]) < nSample)
    by (vm_compute; reflexivity).
  exact (proj1 (proj2
    (capture_before_first_window ∅ (map sample_in ramp ++ [key_in 112]) 111
       [] (0, F32.zero) H1 (or_intror eq_refl)))).
Defined.

(** ** The window count *)

(** C8: in every state [s] reached between passes of [loop], the count is
    in [[0, nSample)].  A pass that takes a sample when the count is
    [nSample - 1] consumes the window in that same pass (the raw sum goes to
    [ADCVal0], the display is written) and leaves sum 0, count 0, maximum
    -32768 and minimum 32767, from which the next sample [v] becomes both
    the running maximum and the running minimum; any other pass adds the
    sample it takes, if any, to the count. *)
Theorem window_count_invariant (e : gmap Z Z) (ins : list input) (i : input)
    (v : Z) :
  AVR.int_range v ->
  let s := fst (run ins (boot e)) in
  let s' := fst (pass i s) in
  0 <= sample s < nSample /\
  (if isr i && (sample s =? nSample - 1)
   then ADCVal0 s' = AVR.to_long (ADCValSum s + adc i) /\
        In AmpDisplay_writeDisplay (snd (pass i s)) /\
        ADCValSum s' = 0 /\ sample s' = 0 /\
        ADCHigh s' = -32768 /\ ADCLow s' = 32767 /\
        (let w := fst (accumulate v (fst (ADCread s'))) in
         ADCHigh w = v /\ ADCLow w = v)
   else sample s' = sample s + (if isr i then 1 else 0)).
Proof.
  intros Hv. cbv zeta.
  destruct (boot_fresh e) as ((_ & Hk & _) & Hflag & _).
  destruct (run_invariant ins (boot e) Hflag) as [Hflag' Hk'];
    [rewrite Hk; unfold nSample; lia|].
  set (s := fst (run ins (boot e))) in *.
  split; [exact Hk'|].
  destruct (pass_general i s Hflag' Hk') as [_ Hrest]. cbv zeta in Hrest.
  destruct (isr i && (sample s =? nSample - 1)) eqn:Hb.
  - destruct Hrest as [(Hsum & Hcnt & Hhi & Hlo) H0].
    apply andb_true_iff in Hb as [Hisr Hlast]. apply Z.eqb_eq in Hlast.
    split; [exact H0|]. split.
    + unfold pass, loop. rewrite Hisr, !seq_snd. unfold ADCread, assign.
      cbn [fst snd app]. rewrite loop_adc_taken by reflexivity. cbv zeta.
      pose proof (accumulate_spec (adc i) (set_gotADCValue true s))
        as (_ & _ & _ & _ & _ & _ & _ & Hc). cbv zeta in Hc.
      cbn [sample set_gotADCValue] in Hc.
      rewrite AVR_to_int_id in Hc by (unfold AVR.int_range, nSample in *; lia).
      replace (sample _ >=? nSample) with true
        by (symmetry; rewrite Z.geb_leb; apply Z.leb_le; lia).
      pose proof (window_complete_spec
                    (fst (accumulate (adc i) (set_gotADCValue true s))))
        as (_ & _ & _ & _ & _ & _ & _ & _ & _ & HT).
      cbv zeta in HT. rewrite HT. unfold display_trace.
      apply in_or_app. left. apply in_or_app. left. cbn. auto.
    + repeat (split; [assumption|]).
      pose proof (accumulate_spec v (fst (ADCread (fst (pass i s)))))
        as (_ & _ & _ & _ & Hh & Hl & _). cbv zeta in Hh, Hl.
      unfold ADCread, assign in *. cbn [fst ADCHigh ADCLow set_gotADCValue] in *.
      rewrite Hh, Hl, Hhi, Hlo. unfold AVR.int_range in Hv. lia.
  - destruct Hrest as [Hc _]. exact Hc.
Qed.

Lemma window_count_invariant_witness :
  sample (fst (pass (sample_in 7) (fst (run (map sample_in ramp) (boot ∅))))) = 0
  /\
  ADCHigh (fst (accumulate (-32768) (fst (ADCread
    (fst (pass (sample_in 7) (fst (run (map sample_in ramp) (boot ∅))))))))) =
  -32768.
Proof.
  assert (H : AVR.int_range (-32768)) by (unfold AVR.int_range; lia).
  assert (Hlast : isr (sample_in 7) &&
            (sample (fst (run (map sample_in ramp) (boot ∅))) =? nSample - 1)
            = true) by (vm_compute; reflexivity).
  pose proof (window_count_invariant ∅ (map sample_in ramp) (sample_in 7)
                (-32768) H) as [_ W].
  rewrite Hlast in W.
  destruct W as (_ & _ & _ & Hc & _ & _ & Hw & _).
  exact (conj Hc Hw).
Defined.

(** ** Prompt and header *)

(** C9: the handler of the logging toggle ('S' or 's') flips
    [SerialDisplay], prints the log header for the new setting and nothing
    else (no prompt), and leaves the offset, the scale factor, their
    derived values and the EEPROM as they were; the handler of every other
    command byte ends by printing the prompt. *)
Theorem command_prompt_or_header (c : Z) (rd : Z * F32.float) (s : state) :
  let r := command rd (set_cmdChar c s) in
  if (c =? 83) || (c =? 115)
  then SerialDisplay (fst r) = negb (SerialDisplay s) /\
       snd r = snd (Display_Header (fst r)) /\
       snd r =
         (if SerialDisplay s
          then [Serial_println (PStr header_rule);
                Serial_println (PStr header_names)]
          else [Serial_newline; Serial_println (PStr header_names);
                Serial_println (PStr header_rule)]) /\
       ~ In (Serial_print (PStr "> ")) (snd r) /\
       calibration (fst r) = calibration s
  else ends_with_prompt (snd r).
Proof.
  cbv zeta. unfold command. cbn [cmdChar set_cmdChar].
  destruct ((c =? 83) || (c =? 115)) eqn:Hc.
  - assert (Hd : decode c = Cmd_toggle_log).
    { apply orb_true_iff in Hc as [Hc|Hc]; apply Z.eqb_eq in Hc; subst c;
        reflexivity. }
    rewrite Hd.
    unfold dispatch, Display_Header, println, calibration, ifs, seq, assign,
      emit, skip.
    cbn. destruct (SerialDisplay s); cbn; repeat split; try reflexivity;
      intros H; repeat (destruct H as [H|H]; [discriminate H|]); exact H.
  - apply dispatch_ends_with_prompt. intros Hd.
    apply decode_toggle in Hd. apply orb_false_iff in Hc as [H1 H2].
    apply Z.eqb_neq in H1, H2. destruct Hd; contradiction.
Qed.

(** ** Floats through the store *)

Lemma digits2_pos_bounds m :
  2 ^ (Z.pos (digits2_pos m) - 1) <= Z.pos m < 2 ^ Z.pos (digits2_pos m).
Proof.
  assert (Hstep : forall d, 0 < d ->
            2 ^ (Z.succ d - 1) = 2 * 2 ^ (d - 1) /\ 2 ^ Z.succ d = 2 * 2 ^ d).
  { intros d Hd. split.
    - replace (Z.succ d - 1) with (Z.succ (d - 1)) by lia.
      apply Z.pow_succ_r. lia.
    - apply Z.pow_succ_r. lia. }
  induction m as [m IH|m IH|]; cbn [digits2_pos].
  - rewrite Pos2Z.inj_succ, Pos2Z.inj_xI.
    destruct (Hstep _ (Pos2Z.pos_is_pos (digits2_pos m))) as [E1 E2].
    rewrite E1, E2. lia.
  - rewrite Pos2Z.inj_succ, (Pos2Z.inj_xO m).
    destruct (Hstep _ (Pos2Z.pos_is_pos (digits2_pos m))) as [E1 E2].
    rewrite E1, E2. lia.
  - cbn. lia.
Qed.

(** The three fields of a word assembled from sign, exponent and fraction. *)
Lemma word_fields s E M :
  0 <= E < 256 -> 0 <= M < 8388608 ->
  let x := F32.sign_bit s + E * 8388608 + M in
  0 <= x < 4294967296 /\
  Z.testbit x 31 = s /\
  Z.land (Z.shiftr x 23) 255 = E /\
  Z.land x 8388607 = M.
Proof.
  intros HE HM x.
  assert (Hs : F32.sign_bit s = 2147483648 * Z.b2z s) by (destruct s; reflexivity).
  assert (Hb : 0 <= Z.b2z s <= 1) by (destruct s; cbn; lia).
  split; [subst x; lia|]. split; [|split].
  - assert (Ht : Z.b2z (Z.testbit x 31) = Z.b2z s).
    { rewrite Z.testbit_spec' by lia. change (2 ^ 31) with 2147483648.
      replace (x / 2147483648) with (Z.b2z s).
      - apply Z.mod_small. lia.
      - apply Z.div_unique with (r := E * 8388608 + M); subst x; lia. }
    destruct (Z.testbit x 31), s; cbn in Ht; congruence.
  - rewrite Z.shiftr_div_pow2 by lia. change (2 ^ 23) with 8388608.
    change 255 with (Z.ones 8). rewrite Z.land_ones by lia.
    change (2 ^ 8) with 256.
    replace (x / 8388608) with (256 * Z.b2z s + E)
      by (apply Z.div_unique with (r := M); subst x; lia).
    symmetry. apply Z.mod_unique with (q := Z.b2z s); lia.
  - change 8388607 with (Z.ones 23). rewrite Z.land_ones by lia.
    change (2 ^ 23) with 8388608.
    symmetry. apply Z.mod_unique with (q := 256 * Z.b2z s + E); subst x; lia.
Qed.

Lemma to_bits_range f :
  valid32 f = true -> 0 <= F32.to_bits f < 4294967296.
Proof.
  destruct f as [s|s| |s m e]; unfold F32.to_bits; try (destruct s; cbn; lia);
    [cbn; lia|].
  unfold valid32, valid_binary, bounded, canonical_mantissa, fexp, emin,
    F32.prec, F32.emax.
  intros H. apply andb_true_iff in H as [Hc Hb].
  apply Z.eqb_eq in Hc. apply Z.leb_le in Hb.
  pose proof (digits2_pos_bounds m) as Hd.
  destruct (Z.ltb_spec (Z.pos m) 8388608) as [Hm|Hm].
  - destruct s; cbn [F32.sign_bit]; lia.
  - assert (Hd24 : Z.pos (digits2_pos m) = 24).
    { assert (23 < Z.pos (digits2_pos m)).
      { apply (Z.pow_lt_mono_r_iff 2); lia. }
      lia. }
    rewrite Hd24 in Hd. change (2 ^ 24) with 16777216 in Hd.
    destruct (word_fields s (e + 150) (Z.pos m - 8388608)) as [Hx _]; lia.
Qed.

(** Decoding the bit pattern of a well-formed float gives the float back. *)
Lemma of_bits_to_bits f :
  valid32 f = true -> F32.of_bits (F32.to_bits f) = f.
Proof.
  destruct f as [s|s| |s m e]; try (intros _; destruct s; reflexivity);
    [intros _; reflexivity|].
  unfold valid32, valid_binary, bounded, canonical_mantissa, fexp, emin,
    F32.prec, F32.emax.
  intros H. apply andb_true_iff in H as [Hc Hb].
  apply Z.eqb_eq in Hc. apply Z.leb_le in Hb.
  pose proof (digits2_pos_bounds m) as Hd.
  unfold F32.to_bits, F32.of_bits.
  destruct (Z.ltb_spec (Z.pos m) 8388608) as [Hm|Hm].
  - assert (He : e = -149).
    { assert (Z.pos (digits2_pos m) - 1 < 23).
      { apply (Z.pow_lt_mono_r_iff 2); lia. }
      lia. }
    destruct (word_fields s 0 (Z.pos m)) as (_ & Hs & HE & HM); try lia.
    cbv zeta in Hs, HE, HM. rewrite Z.mul_0_l, Z.add_0_r in Hs, HE, HM.
    rewrite Hs, HE, HM, He. reflexivity.
  - assert (Hd24 : Z.pos (digits2_pos m) = 24).
    { assert (23 < Z.pos (digits2_pos m)).
      { apply (Z.pow_lt_mono_r_iff 2); lia. }
      lia. }
    rewrite Hd24 in Hd. change (2 ^ 24) with 16777216 in Hd.
    destruct (word_fields s (e + 150) (Z.pos m - 8388608))
      as (_ & Hs & HE & HM); try lia.
    cbv zeta in Hs, HE, HM. rewrite Hs, HE, HM.
    destruct (Z.eqb_spec (e + 150) 0); [lia|].
    destruct (Z.eqb_spec (e + 150) 255); [lia|].
    replace (Z.pos m - 8388608 + 8388608) with (Z.pos m) by lia.
    f_equal. lia.
Qed.

Lemma get_put_float a f e :
  valid32 f = true -> EEPROM.get_float (EEPROM.put_float a f e) a = f.
Proof.
  intros H. unfold EEPROM.get_float, EEPROM.put_float.
  rewrite get_put_word32, Z.mod_small by (apply to_bits_range, H).
  apply of_bits_to_bits, H.
Qed.

(** ** Booting from a programmed store *)

Lemma setup_programmed e :
  EEPROM.get_int e EEPROMProgrammedFlagAddr = EEPROMFlag ->
  setup (reset_state e) =
  (set_ADCLow 32767 (set_ADCHigh (-32768)
     (set_VScale
        (F32.div (F32.mul (EEPROM.get_float e ADCCalAddr) VFull) ADCFull)
        (set_ADCCal (EEPROM.get_float e ADCCalAddr)
           (set_fADCOffset
              (F32.div (F32.of_Z (EEPROM.get_long e ADCOffsetAddr))
                 (F32.of_Z nSample))
              (set_ADCOffset (EEPROM.get_long e ADCOffsetAddr)
                 (set_pinLED false (reset_state e))))))),
   [Serial_begin 115200; Serial_println (PStr vers);
    ads1115 ads_begin; pinMode_OUTPUT LEDPin; digitalWrite LEDPin false;
    ads1115 (ads_setMode 0);
    ads1115 (ads_setDataRate sampleMode); attachInterrupt_RISING ADCreadyPin;
    ads1115 (ads_setComparatorThresholdLow 0);
    ads1115 (ads_setComparatorThresholdHigh 32768);
    ads1115 (ads_setComparatorQueConvert 0);
    ads1115 (ads_setComparatorLatch 0); ads1115 (ads_setGain GAIN_ONE);
    ads1115 ads_requestADC_Differential_0_1;
    AmpDisplay_begin DISPLAY_ADDRESS; pinMode_OUTPUT negPin;
    Serial_println (PStr "(Press ? for menu)"); Serial_newline;
    Serial_print (PStr "> ")]).
Proof.
  intros H. apply Z.eqb_eq in H.
  unfold setup, load_defaults, ifs, seq. cbn. rewrite H. cbn. reflexivity.
Qed.

Lemma defaults_read_back e :
  let e' := EEPROM.put_float ADCCalAddr F32.one
              (EEPROM.put_long ADCOffsetAddr 0
                 (EEPROM.put_int EEPROMProgrammedFlagAddr EEPROMFlag e)) in
  EEPROM.get_int e' EEPROMProgrammedFlagAddr = EEPROMFlag /\
  EEPROM.get_long e' ADCOffsetAddr = 0 /\
  EEPROM.get_float e' ADCCalAddr = F32.one.
Proof.
  cbv zeta. repeat split.
  - unfold EEPROM.get_int, EEPROM.put_float, EEPROM.put_long.
    rewrite !get_word16_put_word32_other by (vm_compute; intuition discriminate).
    rewrite get_put_word16. reflexivity.
  - unfold EEPROM.get_long, EEPROM.put_float, EEPROM.put_long.
    rewrite get_word32_put_word32_other by (vm_compute; intuition discriminate).
    rewrite get_put_word32. reflexivity.
  - apply get_put_float. reflexivity.
Qed.

Lemma boot_consistent e : consistent (boot e).
Proof.
  unfold boot, consistent.
  destruct (Z.eqb_spec (EEPROM.get_int e EEPROMProgrammedFlagAddr) EEPROMFlag)
    as [Hp|Hp].
  - rewrite (setup_programmed e Hp). cbn. repeat split; try reflexivity. exact Hp.
  - apply Z.eqb_neq in Hp.
    destruct (defaults_read_back e) as (Hf & Ho & Hc). cbv zeta in Hf, Ho, Hc.
    unfold setup, load_defaults, ifs, seq. cbn. rewrite Hp. cbn.
    rewrite Hf, Ho, Hc. repeat split; reflexivity.
Qed.

(** Booting from the store of a consistent state changes nothing in the
    store and loads the very calibration the state had. *)
Lemma consistent_reboot s :
  consistent s ->
  eeprom (boot (eeprom s)) = eeprom s /\
  calibration (boot (eeprom s)) = calibration s.
Proof.
  intros (Hf & Ho & Hc & Hfo & Hv).
  unfold boot. rewrite (setup_programmed _ Hf). cbn.
  unfold calibration. rewrite Hfo, Hv, Ho, Hc. split; reflexivity.
Qed.

(** X1: on a store whose flag is [EEPROMFlag], [setup] writes nothing,
    prints no "Loading defaults" message, and takes the offset and the
    scale factor from the store, computing [fADCOffset] and [VScale] from
    them. *)
Theorem setup_keeps_programmed_store (e : gmap Z Z) :
  EEPROM.get_int e EEPROMProgrammedFlagAddr = EEPROMFlag ->
  let r := setup (reset_state e) in
  eeprom (fst r) = e /\
  ADCOffset (fst r) = EEPROM.get_long e ADCOffsetAddr /\
  ADCCal (fst r) = EEPROM.get_float e ADCCalAddr /\
  fADCOffset (fst r) =
    F32.div (F32.of_Z (EEPROM.get_long e ADCOffsetAddr)) (F32.of_Z nSample) /\
  VScale (fst r) =
    F32.div (F32.mul (EEPROM.get_float e ADCCalAddr) VFull) ADCFull /\
  ~ In (Serial_print (PStr "Loading defaults to EEPROM...")) (snd r) /\
  ends_with_prompt (snd r).
Proof.
  intros H. cbv zeta. rewrite (setup_programmed e H). cbn [fst snd].
  repeat split; try reflexivity.
  - cbn. intros Hin.
    repeat (destruct Hin as [Hin|Hin]; [discriminate Hin|]). exact Hin.
  - eexists (_ :: _ :: _ :: _ :: _ :: _ :: _ :: _ :: _ :: _ :: _ :: _ :: _
             :: _ :: _ :: _ :: _ :: []). reflexivity.
Qed.

Lemma setup_keeps_programmed_store_witness :
  eeprom (fst (setup (reset_state (eeprom offset_state)))) = eeprom offset_state
  /\ ADCOffset (fst (setup (reset_state (eeprom offset_state)))) = 43000.
Proof.
  assert (H : EEPROM.get_int (eeprom offset_state) EEPROMProgrammedFlagAddr
              = EEPROMFlag) by (vm_compute; reflexivity).
  destruct (setup_keeps_programmed_store (eeprom offset_state) H)
    as (H1 & H2 & _).
  split; [exact H1|]. rewrite H2. vm_compute. reflexivity.
Defined.

(** X2: whatever the store holds at power-up, after [setup] the state is
    consistent (flag programmed, memory equal to the store, derived values
    up to date), and a second boot from the store so left writes nothing
    and loads the same calibration. *)
Theorem reboot_is_idempotent (e : gmap Z Z) :
  consistent (boot e) /\
  eeprom (boot (eeprom (boot e))) = eeprom (boot e) /\
  calibration (boot (eeprom (boot e))) = calibration (boot e).
Proof.
  split; [apply boot_consistent|].
  apply consistent_reboot, boot_consistent.
Qed.

(** ** Changing the calibration *)

Lemma store_put_cal e f :
  valid32 f = true ->
  let e' := EEPROM.put_float ADCCalAddr f e in
  EEPROM.get_int e' EEPROMProgrammedFlagAddr
    = EEPROM.get_int e EEPROMProgrammedFlagAddr /\
  EEPROM.get_long e' ADCOffsetAddr = EEPROM.get_long e ADCOffsetAddr /\
  EEPROM.get_float e' ADCCalAddr = f.
Proof.
  intros Hf. cbv zeta. repeat split.
  - unfold EEPROM.get_int, EEPROM.put_float.
    rewrite get_word16_put_word32_other by (vm_compute; intuition discriminate).
    reflexivity.
  - unfold EEPROM.get_long, EEPROM.put_float.
    rewrite get_word32_put_word32_other by (vm_compute; intuition discriminate).
    reflexivity.
  - apply get_put_float, Hf.
Qed.

Lemma store_put_offset e v :
  AVR.long_range v ->
  let e' := EEPROM.put_long ADCOffsetAddr v e in
  EEPROM.get_int e' EEPROMProgrammedFlagAddr
    = EEPROM.get_int e EEPROMProgrammedFlagAddr /\
  EEPROM.get_long e' ADCOffsetAddr = v /\
  EEPROM.get_float e' ADCCalAddr = EEPROM.get_float e ADCCalAddr.
Proof.
  intros Hv. cbv zeta. repeat split.
  - unfold EEPROM.get_int, EEPROM.put_long.
    rewrite get_word16_put_word32_other by (vm_compute; intuition discriminate).
    reflexivity.
  - apply get_put_long, Hv.
  - unfold EEPROM.get_float, EEPROM.put_long.
    rewrite get_word32_put_word32_other by (vm_compute; intuition discriminate).
    reflexivity.
Qed.

(** The accepting branch of [Set_Scale]. *)
Lemma Set_Scale_accepts ier aflt s :
  0 < ier ->
  Set_Scale (ier, aflt) s =
  (set_VScale (F32.div (F32.mul aflt VFull) ADCFull)
     (set_eeprom (EEPROM.put_float ADCCalAddr aflt (eeprom s))
        (set_ADCCal aflt s)),
   [Serial_print (PStr "Enter scale factor"); Default (ADCCal s);
    getFloat_call 10000; Serial_newline;
    Serial_print (PStr "Scale factor (ADCCal) = ");
    Serial_println (PFloat aflt 4)]).
Proof.
  intros H. unfold Set_Scale.
  replace (ier >? 0) with true by (symmetry; rewrite Z.gtb_ltb; apply Z.ltb_lt; lia).
  unfold print, put_ADCCal, update_VScale, seq, assign, emit, emitf. cbn.
  reflexivity.
Qed.

Lemma dispatch_gain_state rd s :
  fst (dispatch Cmd_gain rd s) = fst (Set_Scale rd s).
Proof.
  unfold dispatch. rewrite !seq_fst.
  unfold echo at 1, prompt, print, seq, emit, emitf. cbn [fst]. reflexivity.
Qed.

(** Every command keeps the calibration consistent, provided the value the
    dialog would store is well-formed. *)
Lemma dispatch_consistent k rd s :
  valid32 (snd rd) = true ->
  consistent s ->
  consistent (fst (dispatch k rd s)).
Proof.
  destruct rd as [ier aflt]. cbn [snd]. intros Hval (Hf & Ho & Hc & Hfo & Hv).
  unfold consistent.
  destruct k.
  - unfold dispatch, banner, prompt, println, print, seq, emit. cbn. auto.
  - unfold dispatch, echo, help, prompt, println, print, seq, emit, emitf. cbn. auto.
  - rewrite dispatch_gain_state.
    destruct (Z.ltb_spec 0 ier) as [Hi|Hi].
    + rewrite (Set_Scale_accepts ier aflt s Hi). cbn [fst].
      destruct (store_put_cal (eeprom s) aflt Hval) as (E1 & E2 & E3).
      cbv zeta in E1, E2, E3. cbn.
      rewrite E1, E2, E3. auto.
    + rewrite (Set_Scale_rejects ier aflt s Hi). cbn [fst]. auto.
  - unfold dispatch, echo, prompt, println, print, seq, emit, emitf. cbn. auto.
  - destruct (store_put_offset (eeprom s) 0) as (E1 & E2 & E3);
      [unfold AVR.long_range; lia|]. cbv zeta in E1, E2, E3.
    unfold dispatch, echo, put_ADCOffset, update_fADCOffset, prompt, println, print,
      seq, assign, emit, emitf. cbn. rewrite E1, E2, E3. auto.
  - destruct (store_put_cal (eeprom s) F32.one eq_refl) as (E1 & E2 & E3).
    cbv zeta in E1, E2, E3.
    unfold dispatch, echo, put_ADCCal, update_VScale, prompt, println, print,
      seq, assign, emit, emitf. cbn. rewrite E1, E2, E3. auto.
  - destruct (store_put_offset (eeprom s) (AVR.to_long (- ADCVal0 s))
                (AVR_to_long_range _)) as (E1 & E2 & E3).
    cbv zeta in E1, E2, E3.
    unfold dispatch, echo, put_ADCOffset, update_fADCOffset, prompt, println, print,
      seq, assign, emit, emitf. cbn. rewrite E1, E2, E3. auto.
  - unfold dispatch, echo, Display_parameters, prompt, println, print, ifs, seq, emit,
      emitf. cbn. destruct (SerialDisplay s); cbn; auto.
  - unfold dispatch, Display_Header, println, ifs, seq, assign, emit, skip. cbn.
    destruct (SerialDisplay s); cbn; auto.
  - unfold dispatch, prompt, print, ifs, seq, emit, emitf. cbn.
    destruct (_ && _); cbn; auto.
Qed.

Lemma consistent_calibration s s' :
  calibration s' = calibration s -> consistent s -> consistent s'.
Proof.
  unfold calibration, consistent. intros H.
  injection H as -> -> -> -> ->. auto.
Qed.

(** The acquisition half never touches the calibration. *)
Lemma loop_adc_calibration v s :
  calibration (fst (loop_adc v s)) = calibration s /\
  SerialDisplay (fst (loop_adc v s)) = SerialDisplay s.
Proof.
  destruct (gotADCValue s) eqn:Hg.
  - rewrite (loop_adc_taken v s Hg). cbv zeta.
    pose proof (accumulate_spec v s) as (_ & Hu & _). cbv zeta in Hu.
    unfold untouched in Hu. injection Hu as _ _ _ EV EC EO EF ES EE _ _.
    destruct (sample _ >=? nSample).
    + pose proof (window_complete_spec (fst (accumulate v s)))
        as (_ & _ & _ & _ & _ & _ & _ & HS & HC & _). cbv zeta in HS, HC.
      rewrite HS, HC. unfold calibration. rewrite EV, EC, EO, EF, ES, EE.
      split; reflexivity.
    + cbn [fst]. unfold calibration. rewrite EV, EC, EO, EF, ES, EE.
      split; reflexivity.
  - rewrite (loop_adc_idle v s Hg). split; reflexivity.
Qed.

Lemma pass_consistent i s :
  valid_dialog i = true -> consistent s -> consistent (fst (pass i s)).
Proof.
  intros Hval Hs. unfold pass, loop. rewrite !seq_fst.
  set (s0 := fst ((if isr i then ADCread else skip) s)).
  assert (H0 : consistent s0).
  { apply (consistent_calibration s); [|exact Hs].
    subst s0. destruct (isr i); reflexivity. }
  set (s1 := fst (loop_adc (adc i) s0)).
  assert (H1 : consistent s1).
  { apply (consistent_calibration s0); [|exact H0].
    apply loop_adc_calibration. }
  destruct (rx i) as [|c more]; [exact H1|].
  rewrite loop_serial_cons. unfold command.
  apply dispatch_consistent; [exact Hval|].
  apply (consistent_calibration s1); [reflexivity|exact H1].
Qed.

Lemma run_consistent ins : forall s,
  forallb valid_dialog ins = true -> consistent s ->
  consistent (fst (run ins s)).
Proof.
  induction ins as [|i ins IH]; intros s Hval Hs; [exact Hs|].
  cbn [forallb] in Hval. apply andb_true_iff in Hval as [Hi Hval].
  cbn [run]. rewrite seq_fst. apply IH; [exact Hval|].
  apply pass_consistent; assumption.
Qed.

(** X3: when the dialog reports success with a well-formed value, that
    value becomes [ADCCal], [VScale] is recomputed from it, the store reads
    it back exactly, the offset is untouched, and a reboot from the store
    loads the same scale factor. *)
Theorem scale_factor_round_trip (ier : Z) (aflt : F32.float) (s : state) :
  0 < ier ->
  valid32 aflt = true ->
  consistent s ->
  let r := Set_Scale (ier, aflt) s in
  ADCCal (fst r) = aflt /\
  VScale (fst r) = F32.div (F32.mul aflt VFull) ADCFull /\
  EEPROM.get_float (eeprom (fst r)) ADCCalAddr = aflt /\
  ADCOffset (fst r) = ADCOffset s /\
  EEPROM.get_long (eeprom (fst r)) ADCOffsetAddr = ADCOffset s /\
  ADCCal (boot (eeprom (fst r))) = aflt /\
  VScale (boot (eeprom (fst r))) = VScale (fst r) /\
  snd r =
    [Serial_print (PStr "Enter scale factor"); Default (ADCCal s);
     getFloat_call 10000; Serial_newline;
     Serial_print (PStr "Scale factor (ADCCal) = ");
     Serial_println (PFloat aflt 4)].
Proof.
  intros Hi Hval Hs. cbv zeta.
  assert (Hc : consistent (fst (Set_Scale (ier, aflt) s))).
  { rewrite <- dispatch_gain_state. apply dispatch_consistent; assumption. }
  remember (Set_Scale (ier, aflt) s) as r eqn:Hr.
  destruct (consistent_reboot _ Hc) as [_ Hb].
  unfold calibration in Hb. injection Hb as _ _ HbC HbV.
  rewrite HbC, HbV. clear HbC HbV Hc.
  destruct Hs as (_ & Ho & _).
  rewrite (Set_Scale_accepts ier aflt s Hi) in Hr. subst r. cbn [fst snd].
  destruct (store_put_cal (eeprom s) aflt Hval) as (_ & E2 & E3).
  cbv zeta in E2, E3. cbn. rewrite E2, E3, Ho. repeat split; reflexivity.
Qed.

Lemma scale_factor_round_trip_witness :
  ADCCal (boot (eeprom (fst (Set_Scale (1, F32.of_Z 2) (boot ∅)))))
  = F32.of_Z 2.
Proof.
  assert (H1 : 0 < 1) by lia.
  assert (H2 : valid32 (F32.of_Z 2) = true) by (vm_compute; reflexivity).
  exact (proj1 (proj2 (proj2 (proj2 (proj2 (proj2
    (scale_factor_round_trip 1 (F32.of_Z 2) (boot ∅) H1 H2
       (boot_consistent ∅)))))))).
Defined.

(** X4: the command ')' sets the offset to exactly 0 whatever it was, the
    store reads 0 back, [fADCOffset] becomes +0.0, and the scale factor, in
    memory and in the store, is left alone. *)
Theorem zero_offset_command (more : list Z) (rd : Z * F32.float) (s : state) :
  let r := loop_serial (41 :: more) rd s in
  ADCOffset (fst r) = 0 /\
  EEPROM.get_long (eeprom (fst r)) ADCOffsetAddr = 0 /\
  fADCOffset (fst r) = F32.zero /\
  ADCCal (fst r) = ADCCal s /\
  VScale (fst r) = VScale s /\
  EEPROM.get_float (eeprom (fst r)) ADCCalAddr
    = EEPROM.get_float (eeprom s) ADCCalAddr /\
  snd r =
    [Serial_print (PChar 41); Serial_newline;
     Serial_println (PStr "Offset set to zero.");
     Serial_newline; Serial_print (PStr "> ")].
Proof.
  cbv zeta. rewrite loop_serial_cons.
  change (AVR.to_char 41) with 41. unfold command. cbn [cmdChar set_cmdChar].
  change (decode 41) with Cmd_zero_offset.
  destruct (store_put_offset (eeprom s) 0) as (_ & E2 & E3);
    [unfold AVR.long_range; lia|]. cbv zeta in E2, E3.
  unfold dispatch, echo, put_ADCOffset, update_fADCOffset, prompt, println,
    print, seq, assign, emit, emitf. cbn. rewrite E2, E3.
  repeat split; reflexivity.
Qed.

(** X5: the command '!' sets the scale factor to 1.0, the store reads 1.0
    back, [VScale] becomes [VFull / ADCFull] scaled by 1.0, and the offset,
    in memory and in the store, is left alone. *)
Theorem unit_gain_command (more : list Z) (rd : Z * F32.float) (s : state) :
  let r := loop_serial (33 :: more) rd s in
  ADCCal (fst r) = F32.one /\
  EEPROM.get_float (eeprom (fst r)) ADCCalAddr = F32.one /\
  VScale (fst r) = F32.div (F32.mul F32.one VFull) ADCFull /\
  ADCOffset (fst r) = ADCOffset s /\
  fADCOffset (fst r) = fADCOffset s /\
  EEPROM.get_long (eeprom (fst r)) ADCOffsetAddr
    = EEPROM.get_long (eeprom s) ADCOffsetAddr /\
  snd r =
    [Serial_print (PChar 33); Serial_newline;
     Serial_println (PStr "Gain set to one.");
     Serial_newline; Serial_print (PStr "> ")].
Proof.
  cbv zeta. rewrite loop_serial_cons.
  change (AVR.to_char 33) with 33. unfold command. cbn [cmdChar set_cmdChar].
  change (decode 33) with Cmd_unit_gain.
  destruct (store_put_cal (eeprom s) F32.one eq_refl) as (_ & E2 & E3).
  cbv zeta in E2, E3.
  unfold dispatch, echo, put_ADCCal, update_VScale, prompt, println,
    print, seq, assign, emit, emitf. cbn. rewrite E2, E3.
  repeat split; reflexivity.
Qed.

(** X6: from any power-up store and through any sequence of passes
    (samples, commands, dialogs whose value is well-formed), the offset and
    the scale factor in memory equal what the store holds, [fADCOffset] and
    [VScale] are the values derived from them, and a reboot from the store
    would load the same calibration. *)
Theorem calibration_always_persisted (e : gmap Z Z) (ins : list input) :
  forallb valid_dialog ins = true ->
  let s := fst (run ins (boot e)) in
  consistent s /\
  eeprom (boot (eeprom s)) = eeprom s /\
  calibration (boot (eeprom s)) = calibration s.
Proof.
  intros Hval. cbv zeta.
  assert (Hc : consistent (fst (run ins (boot e))))
    by (apply run_consistent; [exact Hval|apply boot_consistent]).
  split; [exact Hc|]. apply consistent_reboot, Hc.
Qed.

Lemma calibration_always_persisted_witness :
  calibration (boot (eeprom offset_state)) = calibration offset_state.
Proof.
  assert (H : forallb valid_dialog
                (map sample_in (repeat (-100) 430) ++ [key_in 79; key_in 115])
              = true) by (vm_compute; reflexivity).
  exact (proj2 (proj2 (calibration_always_persisted ∅ _ H))).
Defined.

(** ** Commands that only print *)

(** X7: the banner, help, kick and parameter commands, and every byte that
    is no command, change nothing in the state beyond [cmdChar]: no
    calibration, window or store cell is written. *)
Theorem read_only_commands (c : Z) (rd : Z * F32.float) (s : state) :
  read_only (decode c) = true ->
  fst (command rd (set_cmdChar c s)) = set_cmdChar c s.
Proof.
  unfold command. cbn [cmdChar set_cmdChar]. intros H.
  destruct (decode c); try discriminate H; unfold dispatch.
  - unfold banner, prompt, println, print, seq, emit. reflexivity.
  - unfold echo, help, prompt, println, print, seq, emit, emitf. reflexivity.
  - unfold echo, prompt, println, print, seq, emit, emitf. reflexivity.
  - unfold echo, Display_parameters, prompt, println, print, ifs, seq, emit,
      emitf. cbn. destruct (SerialDisplay s); reflexivity.
  - unfold prompt, print, ifs, seq, emit, emitf. cbn.
    destruct (_ && _); reflexivity.
Qed.

Lemma read_only_commands_witness :
  fst (command (1, F32.one) (set_cmdChar 112 offset_state))
  = set_cmdChar 112 offset_state.
Proof.
  exact (read_only_commands 112 (1, F32.one) offset_state eq_refl).
Defined.

Lemma to_char_byte b :
  0 <= b <= 255 ->
  AVR.to_char b = (if b <? 128 then b else b - 256) /\
  AVR.to_byte (AVR.to_char b) = b.
Proof.
  intros Hb. unfold AVR.to_char, AVR.to_byte, AVR.wrap.
  change (2 ^ (8 - 1)) with 128. change (2 ^ 8) with 256.
  destruct (Z.ltb_spec b 128).
  - rewrite Z.mod_small by lia. split; [lia|].
    replace (b + 128 - 128) with b by lia. apply Z.mod_small. lia.
  - replace ((b + 128) mod 256) with (b - 128)
      by (apply Z.mod_unique with (q := 1); lia).
    split; [lia|]. symmetry. apply Z.mod_unique with (q := -1); lia.
Qed.

(** X8: a received byte [b] that is no command is answered by [b] itself
    when it is a printable ASCII character (33 to 126) and by its numeric
    value otherwise (control characters, and bytes from 128 up, which
    [cmdChar] holds as negative numbers), then by " ??" and the prompt. *)
Theorem unknown_byte_echo (b : Z) (more : list Z) (rd : Z * F32.float)
    (s : state) :
  0 <= b <= 255 ->
  decode (AVR.to_char b) = Cmd_unknown ->
  loop_serial (b :: more) rd s =
  (set_cmdChar (AVR.to_char b) s,
   [Serial_print (if (32 <? b) && (b <? 127) then PChar b else PByte b);
    Serial_print (PStr " ??"); Serial_newline; Serial_print (PStr "> ")]).
Proof.
  intros Hb Hd. rewrite loop_serial_cons. unfold command.
  cbn [cmdChar set_cmdChar]. rewrite Hd.
  destruct (to_char_byte b Hb) as [Hc Hy].
  unfold dispatch, prompt, print, ifs, seq, emit, emitf.
  cbn [cmdChar set_cmdChar]. rewrite Hy.
  destruct (Z.ltb_spec b 128) as [Hlt|Hge].
  - rewrite Hc, Z.gtb_ltb. destruct ((32 <? b) && (b <? 127)); reflexivity.
  - rewrite Hc, Z.gtb_ltb.
    replace (32 <? b - 256) with false by (symmetry; apply Z.ltb_ge; lia).
    replace (b <? 127) with false by (symmetry; apply Z.ltb_ge; lia).
    rewrite andb_false_r. reflexivity.
Qed.

Lemma unknown_byte_echo_witness :
  snd (loop_serial [200; 13] (0, F32.zero) (boot ∅)) =
  [Serial_print (PByte 200); Serial_print (PStr " ??"); Serial_newline;
   Serial_print (PStr "> ")].
Proof.
  assert (H1 : 0 <= 200 <= 255) by lia.
  assert (H2 : decode (AVR.to_char 200) = Cmd_unknown) by reflexivity.
  exact (f_equal snd
    (unknown_byte_echo 200 [13] (0, F32.zero) (boot ∅) H1 H2)).
Defined.

(** X9: toggling the log twice, with either case of the letter, gives the
    state back (only [cmdChar] holds the last letter) having printed the
    header once per toggle. *)
Theorem toggle_twice (c1 c2 : Z) (rd : Z * F32.float) (s : state) :
  (c1 = 83 \/ c1 = 115) -> (c2 = 83 \/ c2 = 115) ->
  let r1 := command rd (set_cmdChar c1 s) in
  let r2 := command rd (set_cmdChar c2 (fst r1)) in
  fst r2 = set_cmdChar c2 s /\
  length (List.filter
            (fun ev => match ev with
                       | Serial_println (PStr h) => String.eqb h header_names
                       | _ => false
                       end) (snd r1 ++ snd r2)) = 2%nat.
Proof.
  intros H1 H2. cbv zeta. unfold command. cbn [cmdChar set_cmdChar].
  replace (decode c1) with Cmd_toggle_log by (destruct H1 as [-> | ->]; reflexivity).
  replace (decode c2) with Cmd_toggle_log by (destruct H2 as [-> | ->]; reflexivity).
  unfold dispatch, Display_Header, println, ifs, seq, assign, emit, skip.
  destruct s as [g ch v vs v0 hi lo n a vsc cal off foff log e led neg].
  cbn. destruct log; cbn; split; reflexivity.
Qed.

Lemma toggle_twice_witness :
  fst (command (0, F32.zero)
         (set_cmdChar 115 (fst (command (0, F32.zero) (set_cmdChar 83 (boot ∅))))))
  = set_cmdChar 115 (boot ∅).
Proof.
  exact (proj1 (toggle_twice 83 115 (0, F32.zero) (boot ∅)
                  (or_introl eq_refl) (or_intror eq_refl))).
Defined.

(** ** The ready flag *)

(** X10: the flag is a boolean, not a counter.  However often the
    interrupt fired since the last pass, [loop] takes one sample and
    lowers the flag; a following pass without a new interrupt takes
    nothing and sends nothing. *)
Theorem flag_is_consumed_once (v v' : Z) (s : state) :
  let s1 := fst (ADCread s) in
  let r := loop_adc v s1 in
  ADCread s1 = ADCread s /\
  ADCVal (fst r) = v /\
  gotADCValue (fst r) = false /\
  loop_adc v' (fst r) = (fst r, []).
Proof.
  cbv zeta. unfold ADCread, assign. cbn [fst].
  split; [reflexivity|].
  rewrite loop_adc_taken by reflexivity. cbv zeta.
  pose proof (accumulate_spec v (set_gotADCValue true s))
    as (_ & _ & Hg & Hv & _). cbv zeta in Hg, Hv.
  set (w := fst (accumulate v (set_gotADCValue true s))) in *.
  assert (H : ADCVal (fst (if sample w >=? nSample
                           then window_complete w else (w, []))) = v /\
              gotADCValue (fst (if sample w >=? nSample
                                then window_complete w else (w, []))) = false).
  { destruct (sample w >=? nSample); [|cbn [fst]; auto].
    pose proof (window_complete_spec w) as (_ & _ & _ & _ & _ & HG & _).
    cbv zeta in HG. rewrite HG. split; [|exact Hg].
    rewrite <- Hv. unfold window_complete, write_negPin, write_LEDPin,
      Print_Data, ifs, seq, assign, emit, emitf, skip. cbn.
    destruct (F32.ltb _ _); cbn; destruct (SerialDisplay w); reflexivity. }
  destruct H as [HA HG]. split; [exact HA|]. split; [exact HG|].
  apply loop_adc_idle, HG.
Qed.

(** ** Counting samples and windows *)

Lemma display_writes_app o1 o2 :
  display_writes (o1 ++ o2) = display_writes o1 + display_writes o2.
Proof.
  induction o1 as [|ev o1 IH]; [reflexivity|].
  destruct ev; cbn [app display_writes]; lia.
Qed.

Lemma log_means_app o1 o2 : log_means (o1 ++ o2) = log_means o1 ++ log_means o2.
Proof.
  induction o1 as [|ev o1 IH]; [reflexivity|].
  destruct ev as [| p | | | | | | | | | | | |]; cbn [app log_means];
    try exact IH.
  destruct p as [| | | | |fmt args]; try exact IH.
  destruct args as [|[m|f] [|a args]]; try exact IH.
  cbn [app]. rewrite IH. reflexivity.
Qed.

(** No command writes the display or drives a pin. *)
Lemma dispatch_display k rd s :
  display_writes (snd (dispatch k rd s)) = 0 /\
  pinLED (fst (dispatch k rd s)) = pinLED s /\
  pinNeg (fst (dispatch k rd s)) = pinNeg s.
Proof.
  destruct rd as [ier aflt].
  destruct k; unfold dispatch, banner, help, echo, prompt, Set_Scale,
    Display_parameters, Display_Header, put_ADCOffset, put_ADCCal,
    update_VScale, update_fADCOffset, println, print, ifs, seq, assign,
    emit, emitf, skip;
    crunch_proc; repeat split; reflexivity.
Qed.

Lemma loop_serial_display rx rd s :
  display_writes (snd (loop_serial rx rd s)) = 0 /\
  pinLED (fst (loop_serial rx rd s)) = pinLED s.
Proof.
  destruct rx as [|c more]; [split; reflexivity|].
  rewrite loop_serial_cons. unfold command.
  destruct (dispatch_display (decode (cmdChar (set_cmdChar (AVR.to_char c) s)))
              rd (set_cmdChar (AVR.to_char c) s)) as (H1 & H2 & _).
  split; [exact H1|exact H2].
Qed.

Lemma window_complete_display w :
  display_writes (snd (window_complete w)) = 1.
Proof.
  pose proof (window_complete_spec w) as (_ & _ & _ & _ & _ & _ & _ & _ & _ & HT).
  cbv zeta in HT. rewrite HT. unfold display_trace, log_record.
  destruct (SerialDisplay w); reflexivity.
Qed.

(** What one pass does to the display and the activity LED. *)
Lemma pass_display i s :
  gotADCValue s = false ->
  0 <= sample s < nSample ->
  display_writes (snd (pass i s)) =
    (if isr i && (sample s =? nSample - 1) then 1 else 0) /\
  pinLED (fst (pass i s)) =
    (if isr i && (sample s =? nSample - 1) then negb (pinLED s) else pinLED s).
Proof.
  intros Hflag Hk. unfold pass, loop.
  rewrite !seq_snd, !seq_fst, !display_writes_app.
  set (s0 := fst ((if isr i then ADCread else skip) s)).
  assert (H0 : display_writes (snd ((if isr i then ADCread else skip) s)) = 0)
    by (destruct (isr i); reflexivity).
  destruct (loop_serial_display (rx i) (dialog i) (fst (loop_adc (adc i) s0)))
    as [Hd Hl].
  rewrite H0, Hd, Hl. clear H0 Hd Hl. subst s0.
  destruct (isr i); cbn [andb].
  - unfold ADCread, assign. cbn [fst].
    rewrite loop_adc_taken by reflexivity. cbv zeta.
    pose proof (accumulate_spec (adc i) (set_gotADCValue true s))
      as (_ & Hu & _ & _ & _ & _ & _ & Hc).
    cbv zeta in Hu, Hc.
    set (w := fst (accumulate (adc i) (set_gotADCValue true s))) in *.
    cbn [sample set_gotADCValue] in Hc. unfold nSample in *.
    rewrite AVR_to_int_id in Hc by (unfold AVR.int_range; lia).
    unfold untouched in Hu. injection Hu as _ _ _ _ _ _ _ _ _ EL _.
    cbn [pinLED set_gotADCValue] in EL.
    destruct (Z.eqb_spec (sample s) (430 - 1)) as [He|He].
    + replace (sample w >=? 430) with true
        by (symmetry; rewrite Z.geb_leb; apply Z.leb_le; lia).
      pose proof (window_complete_spec w) as (_ & _ & _ & HL & _).
      cbv zeta in HL. rewrite window_complete_display, HL, EL. split; [lia|reflexivity].
    + replace (sample w >=? 430) with false
        by (symmetry; rewrite Z.geb_leb; apply Z.leb_gt; lia).
      cbn. rewrite EL. split; reflexivity.
  - unfold skip. cbn [fst]. rewrite loop_adc_idle by exact Hflag.
    cbn. split; reflexivity.
Qed.

Lemma run_counting ins : forall s,
  gotADCValue s = false ->
  0 <= sample s < nSample ->
  let r := run ins s in
  let T := sample s + samples_taken ins in
  sample (fst r) = T mod nSample /\
  display_writes (snd r) = T / nSample /\
  pinLED (fst r) = xorb (pinLED s) (Z.odd (T / nSample)).
Proof.
  unfold samples_taken, nSample.
  induction ins as [|i ins IH]; intros s Hflag Hk; cbv zeta.
  - cbn. rewrite Z.add_0_r, Z.mod_small, Z.div_small by lia.
    cbn. rewrite xorb_false_r. repeat split; reflexivity.
  - cbn [run]. rewrite seq_fst, seq_snd, display_writes_app.
    destruct (pass_general i s Hflag Hk) as [Hflag' Hrest].
    destruct (pass_display i s Hflag Hk) as [Hd Hl].
    cbv zeta in Hflag', Hrest. unfold nSample in *.
    rewrite Hd. clear Hd. cbn [List.filter].
    destruct (isr i); cbn [andb] in *.
    + cbn [length]. rewrite Nat2Z.inj_succ.
      destruct (Z.eqb_spec (sample s) (430 - 1)) as [He|He].
      * destruct Hrest as [(_ & Hc & _) _].
        destruct (IH (fst (pass (i) s)) Hflag') as (I1 & I2 & I3); [lia|].
        cbv zeta in I1, I2, I3. rewrite I1, I2, I3, Hc, Hl.
        set (t := Z.of_nat (length (List.filter isr ins))).
        replace (sample s + Z.succ t) with (0 + t + 1 * 430) by lia.
        rewrite Z.mod_add, Z.div_add by lia.
        rewrite Z.add_comm with (n := (0 + t) / 430), Z.odd_add.
        cbn [Z.odd]. repeat split; try lia.
        destruct (pinLED s), (Z.odd ((0 + t) / 430)); reflexivity.
      * destruct Hrest as [Hc _].
        destruct (IH (fst (pass (i) s)) Hflag') as (I1 & I2 & I3); [lia|].
        cbv zeta in I1, I2, I3. rewrite I1, I2, I3, Hc, Hl.
        replace (sample s + 1 + Z.of_nat (length (List.filter isr ins)))
          with (sample s + Z.succ (Z.of_nat (length (List.filter isr ins))))
          by lia.
        repeat split; lia.
    + destruct Hrest as [Hc _].
      destruct (IH (fst (pass (i) s)) Hflag') as (I1 & I2 & I3); [lia|].
      cbv zeta in I1, I2, I3. rewrite I1, I2, I3, Hc, Hl, Z.add_0_r.
      repeat split; lia.
Qed.

(** X11: no sample is counted twice or dropped between windows.  After
    any run from boot in which [n] samples were taken, whatever was typed
    in between, the open window holds [n mod nSample] samples, the display
    was written [n / nSample] times (once per completed window), and the
    activity LED is on exactly when that number is odd. *)
Theorem one_display_write_per_window (e : gmap Z Z) (ins : list input) :
  let r := run ins (boot e) in
  sample (fst r) = samples_taken ins mod nSample /\
  display_writes (snd r) = samples_taken ins / nSample /\
  pinLED (fst r) = Z.odd (samples_taken ins / nSample).
Proof.
  destruct (boot_fresh e) as ((_ & Hk & _) & Hflag & _).
  assert (Hled : pinLED (boot e) = false).
  { unfold boot, setup, load_defaults, write_LEDPin, put_ADCOffset, put_ADCCal,
      update_VScale, update_fADCOffset, prompt, println, print,
      ifs, seq, assign, emit, emitf, skip.
    cbn. destruct (negb _); reflexivity. }
  destruct (run_counting ins (boot e) Hflag) as (H1 & H2 & H3);
    [rewrite Hk; unfold nSample; lia|].
  cbv zeta in H1, H2, H3. rewrite Hk, Hled, Z.add_0_l in *.
  cbv zeta. rewrite H1, H2, H3. repeat split; reflexivity.
Qed.

(** ** Logging *)

Lemma window_complete_log w :
  log_means (snd (window_complete w)) =
    (if SerialDisplay w
     then [AVR.to_long (ADCValSum w + ADCOffset w) ÷ sample w] else []) /\
  (SerialDisplay w = false ->
   List.filter is_serial (snd (window_complete w)) = []).
Proof.
  pose proof (window_complete_spec w) as (_ & _ & _ & _ & _ & _ & _ & _ & _ & HT).
  cbv zeta in HT. rewrite HT. unfold display_trace, log_record.
  destruct (SerialDisplay w); split; try reflexivity. discriminate.
Qed.

Lemma pass_quiet i s :
  quiet i = true ->
  pass i s = loop_adc (adc i) (fst ((if isr i then ADCread else skip) s)).
Proof.
  unfold quiet, pass, loop. destruct (rx i); [intros _|discriminate].
  unfold loop_serial, seq, skip.
  destruct (isr i); unfold ADCread, assign; cbn [fst];
    destruct (loop_adc _ _) as [s1 o1]; cbn; rewrite app_nil_r; reflexivity.
Qed.

Lemma run_quiet ins : forall s,
  gotADCValue s = false ->
  0 <= sample s < nSample ->
  forallb quiet ins = true ->
  let r := run ins s in
  let T := sample s + samples_taken ins in
  SerialDisplay (fst r) = SerialDisplay s /\
  calibration (fst r) = calibration s /\
  Z.of_nat (length (log_means (snd r))) =
    (if SerialDisplay s then T / nSample else 0) /\
  (SerialDisplay s = false -> List.filter is_serial (snd r) = []).
Proof.
  unfold samples_taken.
  induction ins as [|i ins IH]; intros s Hflag Hk Hq; cbv zeta.
  - cbn. rewrite Z.add_0_r, Z.div_small by lia.
    destruct (SerialDisplay s); repeat split; reflexivity.
  - cbn [forallb] in Hq. apply andb_true_iff in Hq as [Hi Hq].
    cbn [run]. rewrite seq_fst, seq_snd, log_means_app, length_app,
      List.filter_app, Nat2Z.inj_add.
    destruct (pass_general i s Hflag Hk) as [Hflag' Hrest].
    cbv zeta in Hflag', Hrest.
    assert (Hk' : 0 <= sample (fst (pass i s)) < nSample).
    { pose proof (run_invariant [i] s Hflag Hk) as [_ H].
      rewrite run_one in H. exact H. }
    destruct (IH (fst (pass i s)) Hflag' Hk' Hq) as (I1 & I2 & I3 & I4).
    cbv zeta in I1, I2, I3, I4.
    assert (Hp : SerialDisplay (fst (pass i s)) = SerialDisplay s /\
                 calibration (fst (pass i s)) = calibration s /\
                 Z.of_nat (length (log_means (snd (pass i s)))) =
                   (if SerialDisplay s && isr i && (sample s =? nSample - 1)
                    then 1 else 0) /\
                 (SerialDisplay s = false ->
                  List.filter is_serial (snd (pass i s)) = [])).
    { rewrite (pass_quiet i s Hi).
      destruct (isr i) eqn:Hisr.
      - unfold ADCread, assign. cbn [fst].
        destruct (loop_adc_calibration (adc i) (set_gotADCValue true s))
          as [HC HS].
        rewrite HC, HS. split; [reflexivity|]. split; [reflexivity|].
        rewrite loop_adc_taken by reflexivity. cbv zeta.
        pose proof (accumulate_spec (adc i) (set_gotADCValue true s))
          as (_ & Hu & _ & _ & _ & _ & _ & Hc).
        cbv zeta in Hu, Hc.
        set (w := fst (accumulate (adc i) (set_gotADCValue true s))) in *.
        cbn [sample set_gotADCValue] in Hc. unfold nSample in *.
        rewrite AVR_to_int_id in Hc by (unfold AVR.int_range; lia).
        unfold untouched in Hu. injection Hu as _ _ _ _ _ _ _ ES _ _ _.
        cbn [SerialDisplay set_gotADCValue] in ES.
        destruct (window_complete_log w) as [HL HF]. rewrite ES in HL, HF.
        destruct (Z.eqb_spec (sample s) (430 - 1)) as [He|He].
        + replace (sample w >=? 430) with true
            by (symmetry; rewrite Z.geb_leb; apply Z.leb_le; lia).
          rewrite HL. split; [|exact HF].
          destruct (SerialDisplay s); reflexivity.
        + replace (sample w >=? 430) with false
            by (symmetry; rewrite Z.geb_leb; apply Z.leb_gt; lia).
          cbn. rewrite andb_false_r. split; reflexivity.
      - unfold skip. cbn [fst]. rewrite loop_adc_idle by exact Hflag.
        cbn. rewrite andb_false_r. repeat split; reflexivity. }
    destruct Hp as (P1 & P2 & P3 & P4).
    rewrite P1 in I3, I4.
    rewrite I1, I2, I3, P1, P2, P3.
    split; [reflexivity|]. split; [reflexivity|]. split.
    + cbn [List.filter]. unfold nSample in *.
      destruct (SerialDisplay s); cbn [andb]; [|reflexivity].
      destruct (isr i); cbn [andb] in *.
      * cbn [length]. rewrite Nat2Z.inj_succ.
        set (t := Z.of_nat (length (List.filter isr ins))).
        destruct (Z.eqb_spec (sample s) (430 - 1)) as [He|He].
        -- destruct Hrest as [(_ & Hc & _) _]. rewrite Hc.
           replace (sample s + Z.succ t) with (0 + t + 1 * 430) by lia.
           rewrite Z.div_add by lia. lia.
        -- destruct Hrest as [Hc _]. rewrite Hc.
           replace (sample s + 1 + t) with (sample s + Z.succ t) by lia. lia.
      * destruct Hrest as [Hc _]. rewrite Hc, Z.add_0_r. lia.
    + intros Hoff. rewrite (P4 Hoff), (I4 Hoff). reflexivity.
Qed.

(** X12: while nothing is typed, the logging setting and the calibration
    stay as they are; with logging on, one log line is printed per
    completed window, and with logging off the acquisition sends nothing
    at all to the serial port. *)
Theorem one_log_line_per_window (e : gmap Z Z) (ins0 ins : list input) :
  forallb quiet ins = true ->
  let s := fst (run ins0 (boot e)) in
  let r := run ins s in
  SerialDisplay (fst r) = SerialDisplay s /\
  calibration (fst r) = calibration s /\
  Z.of_nat (length (log_means (snd r))) =
    (if SerialDisplay s
     then (sample s + samples_taken ins) / nSample else 0) /\
  (SerialDisplay s = false -> List.filter is_serial (snd r) = []).
Proof.
  intros Hq.
  destruct (boot_fresh e) as ((_ & Hk & _) & Hflag & _).
  destruct (run_invariant ins0 (boot e) Hflag) as [Hflag' Hk'];
    [rewrite Hk; unfold nSample; lia|].
  exact (run_quiet ins _ Hflag' Hk' Hq).
Qed.

Lemma one_log_line_per_window_witness :
  Z.of_nat (length (log_means (snd
    (run (map sample_in (repeat 5 1000))
       (fst (run [key_in 115] (boot ∅))))))) = 2.
Proof.
  assert (H : forallb quiet (map sample_in (repeat 5 1000)) = true)
    by (vm_compute; reflexivity).
  destruct (one_log_line_per_window ∅ [key_in 115]
              (map sample_in (repeat 5 1000)) H) as (_ & _ & H3 & _).
  rewrite H3. vm_compute. reflexivity.
Defined.

(** ** Zeroing *)

Lemma capture_state c rd s :
  c = 79 \/ c = 111 ->
  fst (command rd (set_cmdChar c s)) =
  set_fADCOffset
    (F32.div (F32.of_Z (AVR.to_long (- ADCVal0 s))) (F32.of_Z nSample))
    (set_eeprom
       (EEPROM.put_long ADCOffsetAddr (AVR.to_long (- ADCVal0 s)) (eeprom s))
       (set_ADCOffset (AVR.to_long (- ADCVal0 s)) (set_cmdChar c s))).
Proof.
  intros Hc. unfold command. cbn [cmdChar set_cmdChar].
  rewrite (decode_capture c Hc).
  unfold dispatch, echo, prompt, put_ADCOffset, update_fADCOffset, println,
    print, seq, assign, emit, emitf.
  reflexivity.
Qed.

(** A reading of zero is never shown as negative. *)
Lemma times_zero_not_negative V :
  F32.ltb (F32.mul V F32.zero) F32.zero = false.
Proof. destruct V as [[|]|[|]| |[|] m e]; reflexivity. Qed.

(** X13: capture the offset after a window [l], then take a window [l']
    with the same raw sum (the same input, say).  The corrected mean is 0:
    [Amps] is [VScale * 0.0], the sign LED is off, and the line logged, if
    logging is on, starts with 0. *)
Theorem captured_input_reads_zero (l l' : list Z) (s : state) (c : Z)
    (more : list Z) (rd : Z * F32.float) :
  fresh_window s ->
  Z.of_nat (length l) = nSample ->
  Z.of_nat (length l') = nSample ->
  Forall AVR.int_range l ->
  Forall AVR.int_range l' ->
  c = 79 \/ c = 111 ->
  sumZ l' = sumZ l ->
  let s1 := fst (run (map sample_in l) s) in
  let s2 := fst (loop_serial (c :: more) rd s1) in
  let r := run (map sample_in l') s2 in
  Amps (fst r) = F32.mul (VScale s) F32.zero /\
  pinNeg (fst r) = false /\
  log_means (snd r) = (if SerialDisplay s then [0] else []).
Proof.
  intros Hf Hlen Hlen' Hl Hl' Hc Hsum. cbv zeta.
  destruct (run_full_window l s Hf Hlen Hl) as (H0 & _ & _ & HF & HS & HC & _).
  cbv zeta in H0, HF, HS, HC.
  set (s1 := fst (run (map sample_in l) s)) in *.
  unfold calibration in HC. injection HC as _ _ _ EV _.
  assert (Hchar : AVR.to_char c = c) by (destruct Hc as [-> | ->]; reflexivity).
  rewrite loop_serial_cons, Hchar, (capture_state c rd s1 Hc).
  set (s2 := set_fADCOffset _ _).
  assert (Hr : AVR.long_range (- sumZ l)).
  { pose proof (sumZ_bounds l Hl). unfold AVR.long_range, nSample in *. lia. }
  assert (Hf2 : fresh_window s2) by exact HF.
  assert (Ho2 : ADCOffset s2 = - sumZ l).
  { subst s2. cbn. rewrite H0. apply AVR_to_long_id, Hr. }
  assert (Hv2 : VScale s2 = VScale s) by (subst s2; cbn; exact EV).
  assert (Hs2 : SerialDisplay s2 = SerialDisplay s) by (subst s2; cbn; exact HS).
  destruct (run_full_window l' s2 Hf2 Hlen' Hl')
    as (_ & HA & HN & _ & _ & _ & HT).
  cbv zeta in HA, HN, HT.
  rewrite Ho2, Hsum, Z.add_opp_diag_r, Hv2 in HA, HN, HT.
  change (AVR.to_long 0 ÷ nSample) with 0 in HA, HN, HT.
  change (F32.of_Z 0) with F32.zero in HA, HN, HT.
  rewrite HA, HN, HT, Hs2, times_zero_not_negative.
  split; [reflexivity|]. split; [reflexivity|].
  unfold display_trace, log_record. destruct (SerialDisplay s); reflexivity.
Qed.

Lemma captured_input_reads_zero_witness :
  pinNeg (fst (run (map sample_in (ramp ++ [7]))
    (fst (loop_serial [111] (0, F32.zero)
       (fst (run (map sample_in (ramp ++ [7])) logging_state)))))) = false.
Proof.
  assert (H1 : fresh_window logging_state)
    by (vm_compute; repeat split; reflexivity).
  assert (H2 : Z.of_nat (length (ramp ++ [7])) = nSample)
    by (vm_compute; reflexivity).
  assert (H3 : Forall AVR.int_range (ramp ++ [7]))
    by (apply int_range_check; vm_compute; reflexivity).
  exact (proj1 (proj2
    (captured_input_reads_zero (ramp ++ [7]) (ramp ++ [7]) logging_state 111
       [] (0, F32.zero) H1 H2 H2 H3 H3 (or_intror eq_refl) eq_refl))).
Defined.

(** ** The mean and the extrema *)

Lemma sumZ_between lo hi l :
  (forall x, In x l -> lo <= x <= hi) ->
  lo * Z.of_nat (length l) <= sumZ l <= hi * Z.of_nat (length l).
Proof.
  induction l as [|x l IH]; intros H; [cbn; lia|].
  cbn [length sumZ]. rewrite Nat2Z.inj_succ.
  pose proof (H x (or_introl eq_refl)).
  assert (IH' := IH (fun y Hy => H y (or_intror Hy))). lia.
Qed.

(** C division keeps a mean between the bounds of what is averaged. *)
Lemma quot_between lo hi S n :
  0 < n -> lo * n <= S <= hi * n -> lo <= S ÷ n <= hi.
Proof.
  intros Hn HS.
  pose proof (Z.quot_rem' S n) as Hq.
  destruct (Z.le_ge_cases 0 S) as [Hpos|Hneg].
  - pose proof (Z.rem_bound_pos S n Hpos Hn). nia.
  - pose proof (Z.rem_bound_pos_neg S n Hn Hneg). nia.
Qed.

(** X14: with a zero offset, the mean code in the first column of a log
    line is an integer between the lowest and the highest reading of its
    window, so it fits the 16-bit range of the readings. *)
Theorem logged_mean_between_extrema (l : list Z) (s : state) :
  fresh_window s ->
  Z.of_nat (length l) = nSample ->
  Forall AVR.int_range l ->
  ADCOffset s = 0 ->
  SerialDisplay s = true ->
  exists m,
    log_means (snd (run (map sample_in l) s)) = [m] /\
    minZ l <= m <= maxZ l /\
    AVR.int_range m.
Proof.
  intros Hf Hlen Hl Hoff Hlog.
  destruct (run_full_window l s Hf Hlen Hl) as (_ & _ & _ & _ & _ & _ & HT).
  cbv zeta in HT. rewrite Hoff, Hlog, Z.add_0_r in HT.
  assert (Hne : l <> []) by (destruct l; [discriminate|congruence]).
  destruct (maxZ_spec l Hne) as [Hmi Hmb].
  destruct (minZ_spec l Hne) as [Hni Hnb].
  pose proof (sumZ_between (minZ l) (maxZ l) l
                (fun x Hx => conj (Hnb x Hx) (Hmb x Hx))) as Hb.
  rewrite Hlen in Hb.
  pose proof (sumZ_bounds l Hl) as Hbb. rewrite Hlen in Hbb.
  rewrite AVR_to_long_id in HT
    by (unfold AVR.long_range, nSample in *; lia).
  exists (sumZ l ÷ nSample). rewrite HT. split; [reflexivity|].
  assert (Hq : minZ l <= sumZ l ÷ nSample <= maxZ l)
    by (apply quot_between; [unfold nSample; lia|exact Hb]).
  split; [exact Hq|].
  rewrite List.Forall_forall in Hl.
  pose proof (Hl _ Hmi) as H1. pose proof (Hl _ Hni) as H2.
  unfold AVR.int_range in *. lia.
Qed.

Lemma logged_mean_between_extrema_witness :
  exists m,
    log_means (snd (run (map sample_in (ramp ++ [7])) logging_state)) = [m] /\
    minZ (ramp ++ [7]) <= m <= maxZ (ramp ++ [7]) /\
    AVR.int_range m.
Proof.
  assert (H1 : fresh_window logging_state)
    by (vm_compute; repeat split; reflexivity).
  assert (H2 : Z.of_nat (length (ramp ++ [7])) = nSample)
    by (vm_compute; reflexivity).
  assert (H3 : Forall AVR.int_range (ramp ++ [7]))
    by (apply int_range_check; vm_compute; reflexivity).
  assert (H4 : ADCOffset logging_state = 0) by (vm_compute; reflexivity).
  assert (H5 : SerialDisplay logging_state = true) by (vm_compute; reflexivity).
  exact (logged_mean_between_extrema (ramp ++ [7]) logging_state
           H1 H2 H3 H4 H5).
Defined.

(** ** 32-bit arithmetic stays exact *)

Lemma dispatch_offset k rd s :
  ADCOffset (fst (dispatch k rd s)) = ADCOffset s \/
  ADCOffset (fst (dispatch k rd s)) = 0 \/
  ADCOffset (fst (dispatch k rd s)) = AVR.to_long (- ADCVal0 s).
Proof.
  destruct rd as [ier aflt].
  destruct k; unfold dispatch, banner, help, echo, prompt, Set_Scale,
    Display_parameters, Display_Header, put_ADCOffset, put_ADCCal,
    update_VScale, update_fADCOffset, println, print, ifs, seq, assign,
    emit, emitf, skip;
    crunch_proc; auto.
Qed.

Lemma pass_offset i s :
  let s' := fst (pass i s) in
  ADCOffset s' = ADCOffset s \/ ADCOffset s' = 0 \/
  ADCOffset s' = AVR.to_long (- ADCVal0 s').
Proof.
  cbv zeta. unfold pass, loop. rewrite !seq_fst.
  set (s0 := fst ((if isr i then ADCread else skip) s)).
  destruct (loop_adc_calibration (adc i) s0) as [HC _].
  set (s1 := fst (loop_adc (adc i) s0)) in *.
  assert (Ho : ADCOffset s1 = ADCOffset s).
  { unfold calibration in HC. injection HC as -> _ _ _ _.
    subst s0. destruct (isr i); reflexivity. }
  pose proof (loop_serial_window (rx i) (dialog i) s1) as Hw.
  unfold window in Hw. injection Hw as _ _ E0 _ _ _.
  destruct (rx i) as [|c more]; [left; exact Ho|].
  rewrite loop_serial_cons in *. unfold command in *.
  rewrite E0.
  destruct (dispatch_offset
              (decode (cmdChar (set_cmdChar (AVR.to_char c) s1)))
              (dialog i) (set_cmdChar (AVR.to_char c) s1)) as [H|[H|H]];
    rewrite H; cbn [ADCOffset ADCVal0 set_cmdChar]; auto.
Qed.

Lemma pass_sum i s :
  gotADCValue s = false ->
  0 <= sample s < nSample ->
  ADCValSum (fst (pass i s)) =
    (if isr i
     then if sample s =? nSample - 1 then 0
          else AVR.to_long (ADCValSum s + adc i)
     else ADCValSum s).
Proof.
  intros Hflag Hk.
  pose proof (pass_window i s) as Hw. unfold window in Hw.
  injection Hw as _ G2 _ _ _ _. rewrite G2. clear G2.
  destruct (isr i).
  - unfold ADCread, assign. cbn [fst].
    rewrite loop_adc_taken by reflexivity. cbv zeta.
    pose proof (accumulate_spec (adc i) (set_gotADCValue true s))
      as (_ & _ & _ & _ & _ & _ & Hs & Hc).
    cbv zeta in Hs, Hc.
    set (w := fst (accumulate (adc i) (set_gotADCValue true s))) in *.
    cbn [ADCValSum sample set_gotADCValue] in Hs, Hc. unfold nSample in *.
    rewrite AVR_to_int_id in Hc by (unfold AVR.int_range; lia).
    destruct (Z.eqb_spec (sample s) (430 - 1)) as [He|He].
    + replace (sample w >=? 430) with true
        by (symmetry; rewrite Z.geb_leb; apply Z.leb_le; lia).
      pose proof (window_complete_spec w) as (_ & _ & _ & _ & HF & _).
      apply HF.
    + replace (sample w >=? 430) with false
        by (symmetry; rewrite Z.geb_leb; apply Z.leb_gt; lia).
      exact Hs.
  - unfold skip. cbn [fst]. rewrite loop_adc_idle by exact Hflag. reflexivity.
Qed.

Lemma pass_bounds i s :
  gotADCValue s = false ->
  0 <= sample s < nSample ->
  adc_in_range i = true ->
  within_bounds s ->
  within_bounds (fst (pass i s)).
Proof.
  intros Hflag Hk Hv (Hsum & H0 & Ho).
  unfold adc_in_range, in_int_range in Hv.
  apply andb_true_iff in Hv as [Hv1 Hv2]. apply Z.leb_le in Hv1, Hv2.
  destruct (pass_general i s Hflag Hk) as [_ Hrest]. cbv zeta in Hrest.
  pose proof (pass_sum i s Hflag Hk) as Hs.
  pose proof (pass_offset i s) as Hoff. cbv zeta in Hoff.
  unfold within_bounds, sum_bound, nSample in *.
  assert (Hexact : AVR.to_long (ADCValSum s + adc i) = ADCValSum s + adc i)
    by (apply AVR_to_long_id; unfold AVR.long_range; lia).
  rewrite Hexact in *.
  assert (Hmain :
    (-32768 * sample (fst (pass i s)) <= ADCValSum (fst (pass i s))
       <= 32767 * sample (fst (pass i s))) /\
    -(32768 * 430) <= ADCVal0 (fst (pass i s)) <= 32768 * 430).
  { rewrite Hs. destruct (isr i); cbn [andb] in Hrest.
    - destruct (Z.eqb_spec (sample s) (430 - 1)) as [He|He].
      + destruct Hrest as [(_ & -> & _) ->]. lia.
      + destruct Hrest as [-> ->]. lia.
    - destruct Hrest as [-> ->]. lia. }
  destruct Hmain as [Hm1 Hm2]. split; [exact Hm1|]. split; [exact Hm2|].
  destruct Hoff as [-> | [-> | ->]]; [lia|lia|].
  rewrite AVR_to_long_id by (unfold AVR.long_range; lia). lia.
Qed.

Lemma run_bounds ins : forall s,
  gotADCValue s = false ->
  0 <= sample s < nSample ->
  forallb adc_in_range ins = true ->
  within_bounds s ->
  within_bounds (fst (run ins s)).
Proof.
  induction ins as [|i ins IH]; intros s Hflag Hk Hv Hb; [exact Hb|].
  cbn [forallb] in Hv. apply andb_true_iff in Hv as [Hi Hv].
  cbn [run]. rewrite seq_fst.
  pose proof (run_invariant [i] s Hflag Hk) as [Hflag' Hk'].
  rewrite run_one in Hflag', Hk'.
  apply IH; try assumption. apply pass_bounds; assumption.
Qed.

(** X15: when the stored offset is no larger than a window sum can be (as
    after any capture, or on a fresh store) and the converter delivers
    16-bit codes, no [long] of the sketch ever wraps: in every state
    reached, adding the next reading to the sum, adding the offset to the
    completed sum, and negating the saved raw sum are all exact. *)
Theorem long_arithmetic_is_exact (e : gmap Z Z) (ins : list input) (v : Z) :
  - sum_bound <= ADCOffset (boot e) <= sum_bound ->
  forallb adc_in_range ins = true ->
  AVR.int_range v ->
  let s := fst (run ins (boot e)) in
  within_bounds s /\
  AVR.to_long (ADCValSum s + v) = ADCValSum s + v /\
  AVR.to_long (ADCValSum s + v + ADCOffset s) = ADCValSum s + v + ADCOffset s /\
  AVR.to_long (- ADCVal0 s) = - ADCVal0 s.
Proof.
  intros Hoff Hins Hv. cbv zeta.
  destruct (boot_fresh e) as ((Hs & Hk & _) & Hflag & H0).
  assert (Hk0 : 0 <= sample (boot e) < nSample)
    by (rewrite Hk; unfold nSample; lia).
  assert (Hb0 : within_bounds (boot e)).
  { unfold within_bounds. rewrite Hs, Hk, H0. unfold sum_bound, nSample in *.
    repeat split; lia. }
  pose proof (run_bounds ins (boot e) Hflag Hk0 Hins Hb0) as Hb.
  destruct (run_invariant ins (boot e) Hflag Hk0) as [_ Hkk].
  split; [exact Hb|].
  destruct Hb as (B1 & B2 & B3).
  unfold sum_bound, nSample, AVR.int_range in *.
  repeat split; apply AVR_to_long_id; unfold AVR.long_range; lia.
Qed.

Lemma long_arithmetic_is_exact_witness :
  within_bounds
    (fst (run (map sample_in (repeat (-32768) 430) ++ [key_in 79]) (boot ∅))).
Proof.
  assert (H1 : - sum_bound <= ADCOffset (boot ∅) <= sum_bound)
    by (vm_compute; split; discriminate).
  assert (H2 : forallb adc_in_range
                 (map sample_in (repeat (-32768) 430) ++ [key_in 79]) = true)
    by (vm_compute; reflexivity).
  assert (H3 : AVR.int_range 32767) by (unfold AVR.int_range; lia).
  exact (proj1 (long_arithmetic_is_exact ∅ _ 32767 H1 H2 H3)).
Defined.
